(** * Airport landing scheduler: a shallow embedding of [simulation.py]

    The development follows the Python module function by function.

    - Real-valued quantities (fuel, times, scores) are Python floats in the
      source; they are modelled here as exact rationals [Q], compared with
      the boolean tests the interpreter would run.  The one place where the
      binary64 rounding itself is the subject (the cooling schedule of the
      simulated annealing loop) is modelled with primitive floats.
    - A pandas [DataFrame] is a list of rows plus a flag recording whether
      the [Score] column has been created.
    - Exceptions are values of an error type, threaded by a small monad.
    - The global [random] module is an explicit source of draws. *)

From Stdlib Require Import QArith Qabs Lqa PrimFloat String.
From stdpp Require Import base list.

Local Open Scope Q_scope.

(** ** Comparisons and arithmetic helpers *)

(** [x < y] on floats, as a boolean. *)
Definition Qltb (x y : Q) : bool := negb (Qle_bool y x).

(** Python's two-argument [max(a, b)]: [b] only when [b > a]. *)
Definition py_max (a b : Q) : Q := if Qltb a b then b else a.

(** ** Errors *)

Inductive PyError : Type :=
  | ZeroDivisionError
  | KeyError
  | ValueError
  | IndexError.

Inductive Result (A : Type) : Type :=
  | Ok (a : A)
  | Raise (e : PyError).
Arguments Ok {A} a.
Arguments Raise {A} e.

#[global] Instance Result_ret : MRet Result := fun A a => Ok a.
#[global] Instance Result_bind : MBind Result := fun A B k m =>
  match m with
  | Ok a => k a
  | Raise e => Raise e
  end.

(** ** The airplane entity ([class Airplane]) *)

Record Airplane : Type := mkAirplane {
  id : Z;
  fuel_consumption_rate : Q;
  expected_landing_time : Q;
  fuel_level : Q;
  emergency_fuel : Q;
  fuel_level_final : Q;
  remaining_flying_time : Q;
  is_urgent : bool
}.

(** The three [random.uniform] draws of the constructor. *)
Record Draws : Type := mkDraws {
  draw_rate : Q;
  draw_arrival : Q;
  draw_fuel : Q
}.

(** [Airplane.__init__]: the division raises when the rate is zero. *)
Definition Airplane_init (i : Z) (d : Draws) : Result Airplane :=
  let rate := draw_rate d in
  let elt := draw_arrival d in
  let fl0 := draw_fuel d in
  let ef := rate * 60 in
  let fl := py_max fl0 ef in
  let flf := fl - ef in
  if Qeq_bool rate 0 then Raise ZeroDivisionError
  else
    let rft := flf / rate in
    Ok {| id := i;
          fuel_consumption_rate := rate;
          expected_landing_time := elt;
          fuel_level := fl;
          emergency_fuel := ef;
          fuel_level_final := flf;
          remaining_flying_time := rft;
          is_urgent := Qltb flf ef || Qltb rft 1 |}.

Definition set_is_urgent (b : bool) (a : Airplane) : Airplane :=
  {| id := id a;
     fuel_consumption_rate := fuel_consumption_rate a;
     expected_landing_time := expected_landing_time a;
     fuel_level := fuel_level a;
     emergency_fuel := emergency_fuel a;
     fuel_level_final := fuel_level_final a;
     remaining_flying_time := remaining_flying_time a;
     is_urgent := b |}.

(** The loop that opens both [hill_climbing_schedule_landings] and
    [tabu_search_schedule_landings]: every airplane of the stream gets its
    flag overwritten in place. *)
Definition mark_urgent (a : Airplane) : Airplane :=
  set_is_urgent
    (Qltb (fuel_level_final a) (emergency_fuel a)
     || Qltb (remaining_flying_time a) (expected_landing_time a)) a.

Definition recompute_urgency (airplane_stream : list Airplane) : list Airplane :=
  map mark_urgent airplane_stream.

(** ** Simulated annealing: the temperature schedule

    [T = 1.0; T_min = 0.001; alpha = 0.9; while T > T_min: ...; T *= alpha].
    The body of the loop never touches [T], so the number of iterations is
    a function of the three constants alone.  Temperatures are binary64
    values, as in the interpreter. *)
Module Cooling.

#[local] Set Warnings "-inexact-float".
Definition T0 : float := 1.0%float.
Definition T_min : float := 0.001%float.
Definition alpha : float := 0.9%float.
#[local] Set Warnings "inexact-float".

(** [while T > T_min]: the loop test. *)
Definition running (T : float) : bool := PrimFloat.ltb T_min T.

(** [T *= alpha]. *)
Definition cool (T : float) : float := PrimFloat.mul T alpha.

(** Temperature after [n] coolings. *)
Fixpoint temperature (n : nat) : float :=
  match n with
  | O => T0
  | S n' => cool (temperature n')
  end.

End Cooling.


(** ** Schedules ([pandas.DataFrame])

    One row per landing.  The [Score] column does not exist when
    [schedule_landings] returns; the first [df.at[index, 'Score'] = ...]
    creates it, leaving the other rows unset (NaN). *)

Record Row : Type := mkRow {
  airplane_ID : Z;
  actual_landing_time : Q;
  urgent : bool;
  landing_strip : nat;
  score : option Q
}.

Record DataFrame : Type := mkDataFrame {
  rows : list Row;
  has_score_column : bool
}.

Definition set_score (s : Q) (r : Row) : Row :=
  {| airplane_ID := airplane_ID r;
     actual_landing_time := actual_landing_time r;
     urgent := urgent r;
     landing_strip := landing_strip r;
     score := Some s |}.

Definition set_actual_landing_time (t : Q) (r : Row) : Row :=
  {| airplane_ID := airplane_ID r;
     actual_landing_time := t;
     urgent := urgent r;
     landing_strip := landing_strip r;
     score := score r |}.

(** ** [sorted(xs, key=...)]: a stable sort on the keys' [<] *)

Section Sorted.
Context {A : Type} (key : A -> Q).

(** [x] goes in front of the first element whose key is not smaller, so
    that among equal keys the original order is kept. *)
Fixpoint insert_by (x : A) (l : list A) : list A :=
  match l with
  | [] => [x]
  | y :: l' => if Qltb (key y) (key x) then y :: insert_by x l'
               else x :: y :: l'
  end.

Fixpoint sorted (l : list A) : list A :=
  match l with
  | [] => []
  | x :: l' => insert_by x (sorted l')
  end.

End Sorted.

(** ** [schedule_landings] *)

(** One pass of the [for airplane in sorted_airplanes] loop.  The state is
    [landing_strip_availability], [landing_strip_index] and the rows
    appended so far. *)
Definition landing_step (st : list Q * nat * list Row) (airplane : Airplane)
  : list Q * nat * list Row :=
  let '(landing_strip_availability, landing_strip_index, landing_schedule) := st in
  let chosen_strip := (landing_strip_index mod 3)%nat in
  let next_available_time_with_gap :=
    nth chosen_strip landing_strip_availability 0 + 3 / 60 in
  let actual := py_max (expected_landing_time airplane) next_available_time_with_gap in
  let actual :=
    if is_urgent airplane && Qltb (remaining_flying_time airplane) actual
    then remaining_flying_time airplane else actual in
  (<[chosen_strip := actual + 3]> landing_strip_availability,
   S landing_strip_index,
   landing_schedule ++
     [ {| airplane_ID := id airplane;
          actual_landing_time := actual;
          urgent := is_urgent airplane;
          landing_strip := S chosen_strip;
          score := None |} ]).

Definition sorted_airplanes (airplane_stream : list Airplane) : list Airplane :=
  let urgent_airplanes :=
    sorted remaining_flying_time (filter (fun ap => is_urgent ap = true) airplane_stream) in
  let non_urgent_airplanes :=
    sorted expected_landing_time (filter (fun ap => is_urgent ap = false) airplane_stream) in
  urgent_airplanes ++ non_urgent_airplanes.

Definition schedule_landings (airplane_stream : list Airplane) : DataFrame :=
  let '(_, _, landing_schedule) :=
    fold_left landing_step (sorted_airplanes airplane_stream) ([0; 0; 0], O, []) in
  {| rows := landing_schedule; has_score_column := false |}.

(** ** [evaluate_landing_schedule] *)

(** [next((ap for ap in airplane_stream if ap.id == row['Airplane ID']), None)] *)
Definition lookup_airplane (airplane_stream : list Airplane) (row : Row)
  : option Airplane :=
  List.find (fun ap => Z.eqb (id ap) (airplane_ID row)) airplane_stream.

Definition record_score (airplane : Airplane) (actual : Q) : Q :=
  let difference := Qabs (expected_landing_time airplane - actual) in
  let urgency_penalty := if is_urgent airplane then 100 else 0 in
  1000 - difference - urgency_penalty.

(** The body of the [iterrows] loop on one row: a row whose airplane is not
    found is left as it is. *)
Definition score_row (airplane_stream : list Airplane) (row : Row) : Row :=
  match lookup_airplane airplane_stream row with
  | Some airplane => set_score (record_score airplane (actual_landing_time row)) row
  | None => row
  end.

Definition row_found (airplane_stream : list Airplane) (row : Row) : bool :=
  match lookup_airplane airplane_stream row with
  | Some _ => true
  | None => false
  end.

(** The whole loop, which is also, line for line, the helper
    [calculate_score] nested in [simulated_annealing_schedule_landings]:
    the column exists afterwards if it existed before or if some row was
    written. *)
Definition calculate_score (schedule_df : DataFrame) (airplane_stream : list Airplane)
  : DataFrame :=
  {| rows := map (score_row airplane_stream) (rows schedule_df);
     has_score_column :=
       has_score_column schedule_df
       || existsb (row_found airplane_stream) (rows schedule_df) |}.

(** [Series.sum()] skips the unset entries. *)
Fixpoint sum_scores (l : list Row) : Q :=
  match l with
  | [] => 0
  | r :: l' => match score r with
               | Some s => s + sum_scores l'
               | None => sum_scores l'
               end
  end.

(** [df['Score'].sum()]: selecting a missing column raises [KeyError]. *)
Definition Score_sum (df : DataFrame) : Result Q :=
  if has_score_column df then Ok (sum_scores (rows df)) else Raise KeyError.

(** The function mutates its argument; the mutated frame is returned along
    with the total. *)
Definition evaluate_landing_schedule
  (landing_schedule_df : DataFrame) (airplane_stream : list Airplane)
  : Result (DataFrame * Q) :=
  let df := calculate_score landing_schedule_df airplane_stream in
  total_score ← Score_sum df;
  mret (df, total_score).

(** ** [get_successors] *)

(** [df.iloc[i], df.iloc[j] = df.iloc[j].copy(), df.iloc[i].copy()]: both
    right-hand sides are read first, then row [i] and row [j] are written. *)
Definition swap_rows (i j : nat) (l : list Row) : list Row :=
  match l !! i, l !! j with
  | Some ri, Some rj => <[j := ri]> (<[i := rj]> l)
  | _, _ => l
  end.

Definition iloc_swap (i j : nat) (df : DataFrame) : DataFrame :=
  {| rows := swap_rows i j (rows df); has_score_column := has_score_column df |}.

(** [range(a, b)] *)
Definition range (a b : nat) : list nat := seq a (b - a).

Definition get_successors (landing_schedule_df : DataFrame) (airplane_stream : list Airplane)
  : list DataFrame :=
  let n := length (rows landing_schedule_df) in
  if (n <=? 1)%nat then [landing_schedule_df]
  else
    flat_map (fun i =>
      map (fun j => iloc_swap i j landing_schedule_df) (range (i + 1) n))
      (range 0 n).

(** ** The random source

    The module-level generator of [random] is threaded explicitly.
    [randbelow n] stands for the generator's integer primitive; whatever it
    returns is reduced modulo [n], so every instance behaves like a
    generator.  [random_float] is [random.random()]. *)

Class RandomSource (G : Type) : Type := {
  randbelow : nat -> G -> nat * G;
  random_float : G -> Q * G
}.

Section Randomised.
Context {G : Type} `{RandomSource G}.

(** [random.sample(range(n), 2)]: fewer than two positions is a
    [ValueError]; otherwise the first pick is any position and the second
    pick is any of the remaining ones (the pool slot of the first pick is
    refilled with the last position). *)
Definition sample2 (n : nat) (g : G) : Result (nat * nat * G) :=
  if (n <? 2)%nat then Raise ValueError
  else
    let '(x, g) := randbelow n g in
    let '(y, g) := randbelow (n - 1) g in
    let i := (x mod n)%nat in
    let y := (y mod (n - 1))%nat in
    let j := if (y =? i)%nat then (n - 1)%nat else y in
    Ok (i, j, g).

(** [random.choice(seq)] *)
Definition choice {A : Type} (l : list A) (g : G) : Result (A * G) :=
  let '(k, g) := randbelow (length l) g in
  match l !! (k mod length l)%nat with
  | Some x => Ok (x, g)
  | None => Raise IndexError
  end.

(** ** [get_Hill_Tabu_successors] *)

(** One row of the recomputation loop.  The state is the deque
    [strip_availability_times]; a row whose airplane is missing leaves both
    the row and the deque alone. *)
Definition recompute_row (airplane_stream : list Airplane)
  (strip_availability_times : list Q) (row : Row) : list Q * Row :=
  match lookup_airplane airplane_stream row with
  | Some airplane =>
      let current_time :=
        py_max (nth 0 strip_availability_times 0) (expected_landing_time airplane) in
      let row := set_actual_landing_time current_time row in
      let row := set_score (record_score airplane current_time) row in
      let popped := tail strip_availability_times in
      let appended := popped ++ [current_time + 3] in
      (sorted (fun t => t) appended, row)
  | None => (strip_availability_times, row)
  end.

Fixpoint recompute_rows (airplane_stream : list Airplane)
  (strip_availability_times : list Q) (l : list Row) : list Row :=
  match l with
  | [] => []
  | row :: l' =>
      let '(times, row') := recompute_row airplane_stream strip_availability_times row in
      row' :: recompute_rows airplane_stream times l'
  end.

Definition recompute (airplane_stream : list Airplane) (df : DataFrame) : DataFrame :=
  {| rows := recompute_rows airplane_stream [0; 0; 0] (rows df);
     has_score_column :=
       has_score_column df || existsb (row_found airplane_stream) (rows df) |}.

Fixpoint Hill_Tabu_successors_loop (landing_schedule_df : DataFrame)
  (airplane_stream : list Airplane) (num_successors : nat) (g : G)
  : Result (list DataFrame * G) :=
  match num_successors with
  | O => Ok ([], g)
  | S k =>
      '(i, j, g) ← sample2 (length (rows landing_schedule_df)) g;
      let new_schedule_df := recompute airplane_stream (iloc_swap i j landing_schedule_df) in
      '(successors, g) ← Hill_Tabu_successors_loop landing_schedule_df airplane_stream k g;
      mret (new_schedule_df :: successors, g)
  end.

Definition get_Hill_Tabu_successors (landing_schedule_df : DataFrame)
  (airplane_stream : list Airplane) (g : G) : Result (list DataFrame * G) :=
  Hill_Tabu_successors_loop landing_schedule_df airplane_stream 15 g.

(** ** [hill_climbing_schedule_landings] *)

(** The inner [for neighbor_df in neighbors] loop, on the pair
    [(next_state_df, next_score)]. *)
Fixpoint lowest_neighbor (airplane_stream : list Airplane) (neighbors : list DataFrame)
  (next_state_df : DataFrame) (next_score : Q) : Result (DataFrame * Q) :=
  match neighbors with
  | [] => Ok (next_state_df, next_score)
  | neighbor_df :: rest =>
      '(neighbor_df, score) ← evaluate_landing_schedule neighbor_df airplane_stream;
      if Qltb score next_score
      then lowest_neighbor airplane_stream rest neighbor_df score
      else lowest_neighbor airplane_stream rest next_state_df next_score
  end.

(** The [while True] loop; [None] when [fuel] iterations were not enough
    to reach the [break]. *)
Fixpoint hill_climbing_loop (fuel : nat) (airplane_stream : list Airplane)
  (landing_schedule_df : DataFrame) (current_score : Q) (scores : list Q) (g : G)
  : option (Result (DataFrame * list Q)) :=
  match fuel with
  | O => None
  | S fuel' =>
      match get_Hill_Tabu_successors landing_schedule_df airplane_stream g with
      | Raise e => Some (Raise e)
      | Ok (neighbors, g) =>
          match lowest_neighbor airplane_stream neighbors landing_schedule_df current_score with
          | Raise e => Some (Raise e)
          | Ok (next_state_df, next_score) =>
              if Qeq_bool next_score current_score
              then Some (Ok (landing_schedule_df, scores))
              else hill_climbing_loop fuel' airplane_stream next_state_df next_score scores g
          end
      end
  end.

Definition hill_climbing_schedule_landings (fuel : nat)
  (airplane_stream : list Airplane) (g : G)
  : option (Result (DataFrame * list Q)) :=
  let airplane_stream := recompute_urgency airplane_stream in
  let landing_schedule_df := schedule_landings airplane_stream in
  match evaluate_landing_schedule landing_schedule_df airplane_stream with
  | Raise e => Some (Raise e)
  | Ok (landing_schedule_df, current_score) =>
      let scores := [] in
      hill_climbing_loop fuel airplane_stream landing_schedule_df current_score scores g
  end.

(** ** [simulated_annealing_schedule_landings] *)

(** [math.exp((new_score - current_score) / T) > random.random()]: the
    exponential is outside the rationals, so the test is a parameter; it
    receives the temperature and the score difference and consumes the
    draw. *)
Variable exp_gt_random : float -> Q -> G -> bool * G.

Definition get_schedule_neighbor (schedule_df : DataFrame) (g : G)
  : Result (DataFrame * G) :=
  '(i, j, g) ← sample2 (length (rows schedule_df)) g;
  mret (iloc_swap i j schedule_df, g).

Record AnnealingState : Type := mkAnnealing {
  current_schedule : DataFrame;
  current_score : Q;
  best_schedule : DataFrame;
  best_score : Q;
  generator : G;
  iterations : nat
}.

(** One pass through the body of [while T > T_min], cooling excluded. *)
Definition annealing_body (airplane_stream : list Airplane) (T : float)
  (st : AnnealingState) : Result AnnealingState :=
  '(new_schedule, g) ← get_schedule_neighbor (current_schedule st) (generator st);
  let new_schedule := calculate_score new_schedule airplane_stream in
  new_score ← Score_sum new_schedule;
  let '(accept, g) :=
    if Qltb (current_score st) new_score then (true, g)
    else exp_gt_random T (new_score - current_score st) g in
  if accept then
    let improved := Qltb (best_score st) new_score in
    mret {| current_schedule := new_schedule;
            current_score := new_score;
            best_schedule := if improved then new_schedule else best_schedule st;
            best_score := if improved then new_score else best_score st;
            generator := g;
            iterations := S (iterations st) |}
  else
    mret {| current_schedule := current_schedule st;
            current_score := current_score st;
            best_schedule := best_schedule st;
            best_score := best_score st;
            generator := g;
            iterations := S (iterations st) |}.

(** The loop itself; [iterations] counts the passes.  [None] when [fuel]
    unrollings were not enough for the test [T > T_min] to fail. *)
Fixpoint annealing_loop (fuel : nat) (airplane_stream : list Airplane)
  (T : float) (st : AnnealingState) : option (Result AnnealingState) :=
  match fuel with
  | O => None
  | S fuel' =>
      if Cooling.running T then
        match annealing_body airplane_stream T st with
        | Raise e => Some (Raise e)
        | Ok st => annealing_loop fuel' airplane_stream (Cooling.cool T) st
        end
      else Some (Ok st)
  end.

Definition simulated_annealing_run (fuel : nat) (airplane_stream : list Airplane) (g : G)
  : option (Result AnnealingState) :=
  let current_schedule := schedule_landings airplane_stream in
  let current_schedule := calculate_score current_schedule airplane_stream in
  match Score_sum current_schedule with
  | Raise e => Some (Raise e)
  | Ok current_score =>
      annealing_loop fuel airplane_stream Cooling.T0
        {| current_schedule := current_schedule;
           current_score := current_score;
           best_schedule := current_schedule;
           best_score := current_score;
           generator := g;
           iterations := O |}
  end.

(** What the Python function returns: [(best_schedule, best_score)]. *)
Definition simulated_annealing_schedule_landings (fuel : nat)
  (airplane_stream : list Airplane) (g : G) : option (Result (DataFrame * Q)) :=
  match simulated_annealing_run fuel airplane_stream g with
  | None => None
  | Some r => Some (st ← r; mret (best_schedule st, best_score st))
  end.

(** ** [tabu_search_schedule_landings] *)

(** [DataFrame.to_string()]: the rendering belongs to pandas. *)
Variable to_string : DataFrame -> string.

Record TabuInner : Type := mkTabuInner {
  seen : list DataFrame;
  best_solution_df : DataFrame;
  best_solution_score : Q;
  next_state_df : DataFrame;
  next_score : Q;
  tabu_list : list string
}.

Definition string_in (s : string) (l : list string) : bool :=
  existsb (String.eqb s) l.

(** The [for neighbor_df in neighbors] loop.  [seen] collects the
    neighbours as [evaluate_landing_schedule] leaves them, since the list
    is read again by [random.choice]. *)
Fixpoint tabu_neighbors (airplane_stream : list Airplane) (max_tabu_size : Z)
  (neighbors : list DataFrame) (st : TabuInner) : Result TabuInner :=
  match neighbors with
  | [] => Ok st
  | neighbor_df :: rest =>
      let neighbor_string := to_string neighbor_df in
      '(neighbor_df, score) ← evaluate_landing_schedule neighbor_df airplane_stream;
      let better := Qltb score (best_solution_score st) in
      let best_df := if better then neighbor_df else best_solution_df st in
      let best_sc := if better then score else best_solution_score st in
      let fresh := negb (string_in neighbor_string (tabu_list st)) in
      let improving := fresh && Qltb score (next_score st) in
      let tabu :=
        if fresh then
          let appended := tabu_list st ++ [neighbor_string] in
          if (max_tabu_size <? Z.of_nat (length appended))%Z then tail appended
          else appended
        else tabu_list st in
      tabu_neighbors airplane_stream max_tabu_size rest
        {| seen := seen st ++ [neighbor_df];
           best_solution_df := best_df;
           best_solution_score := best_sc;
           next_state_df := if improving then neighbor_df else next_state_df st;
           next_score := if improving then score else next_score st;
           tabu_list := tabu |}
  end.

Record TabuState : Type := mkTabu {
  landing_schedule_df : DataFrame;
  tabu_current_score : Q;
  scores : list Q;
  tabu : list string;
  it : Z;
  tabu_generator : G
}.

(** One pass through the body of [while it < max_iterations]. *)
Definition tabu_body (airplane_stream : list Airplane) (max_tabu_size : Z)
  (st : TabuState) : Result TabuState :=
  '(neighbors, g) ←
    get_Hill_Tabu_successors (landing_schedule_df st) airplane_stream (tabu_generator st);
  let scores := scores st ++ [tabu_current_score st] in
  (* the current frame is re-evaluated in place: [next_state_df] and
     [best_solution_df] are other names of the same object *)
  '(current_df, best_score) ← evaluate_landing_schedule (landing_schedule_df st) airplane_stream;
  inner ← tabu_neighbors airplane_stream max_tabu_size neighbors
             {| seen := [];
                best_solution_df := current_df;
                best_solution_score := best_score;
                next_state_df := current_df;
                next_score := tabu_current_score st;
                tabu_list := tabu st |};
  '(next_df, next_sc, g) ←
    (if Qle_bool (tabu_current_score st) (next_score inner) then
       let '(r, g) := random_float g in
       if Qltb r (1 / 10) then
         '(picked, g) ← choice (seen inner) g;
         '(picked, sc) ← evaluate_landing_schedule picked airplane_stream;
         mret (picked, sc, g)
       else mret (best_solution_df inner, best_solution_score inner, g)
     else mret (next_state_df inner, next_score inner, g));
  mret {| landing_schedule_df := next_df;
          tabu_current_score := next_sc;
          scores := scores;
          tabu := tabu_list inner;
          it := (it st + 1)%Z;
          tabu_generator := g |}.

(** The loop runs while [it < max_iterations]; [it] grows by one per pass,
    so [fuel] is the number of passes that can still be needed. *)
Fixpoint tabu_loop (fuel : nat) (airplane_stream : list Airplane)
  (max_iterations max_tabu_size : Z) (st : TabuState) : Result TabuState :=
  match fuel with
  | O => Ok st
  | S fuel' =>
      if (it st <? max_iterations)%Z then
        st ← tabu_body airplane_stream max_tabu_size st;
        tabu_loop fuel' airplane_stream max_iterations max_tabu_size st
      else Ok st
  end.

Definition tabu_search_run (airplane_stream : list Airplane)
  (max_iterations max_tabu_size : Z) (g : G) : Result TabuState :=
  let airplane_stream := recompute_urgency airplane_stream in
  let df := schedule_landings airplane_stream in
  '(df, current_score) ← evaluate_landing_schedule df airplane_stream;
  tabu_loop (Z.to_nat max_iterations) airplane_stream max_iterations max_tabu_size
    {| landing_schedule_df := df;
       tabu_current_score := current_score;
       scores := [];
       tabu := [];
       it := 0%Z;
       tabu_generator := g |}.

(** What the Python function returns: [(landing_schedule_df, scores)]. *)
Definition tabu_search_schedule_landings (airplane_stream : list Airplane)
  (max_iterations max_tabu_size : Z) (g : G) : Result (DataFrame * list Q) :=
  st ← tabu_search_run airplane_stream max_iterations max_tabu_size g;
  mret (landing_schedule_df st, scores st).

End Randomised.

(** ** Well-formed airplanes and sample inputs *)

(** The construction invariants, as relations between the fields. *)
Definition airplane_wf (a : Airplane) : Prop :=
  0 < fuel_consumption_rate a
  /\ emergency_fuel a <= fuel_level a
  /\ fuel_level_final a == fuel_level a - emergency_fuel a
  /\ remaining_flying_time a == fuel_level_final a / fuel_consumption_rate a.

(** Draws for an airplane that can stay up ten hours beyond its reserve
    and is expected after five. *)
Definition low_fuel_draws : Draws :=
  {| draw_rate := 10; draw_arrival := 5; draw_fuel := 700 |}.

Definition low_fuel_airplane : Airplane :=
  {| id := 1;
     fuel_consumption_rate := 10;
     expected_landing_time := 5;
     fuel_level := 700;
     emergency_fuel := 600;
     fuel_level_final := 100;
     remaining_flying_time := 100 # 10;
     is_urgent := true |}.

(** The loop state of [schedule_landings] when no runway time and no
    landing time recorded so far is negative. *)
Definition landing_state_nonneg (st : list Q * nat * list Row) : Prop :=
  Forall (fun t => 0 <= t) st.1.1
  /\ Forall (fun r => 0 <= actual_landing_time r) st.2.

(** A frame of [n] rows in which the [Score] column exists. *)
Definition scored (n : nat) (df : DataFrame) : Prop :=
  length (rows df) = n /\ has_score_column df = true.

(** The frames held by the inner loop of tabu search are all such. *)
Definition inner_scored (n : nat) (st : TabuInner) : Prop :=
  Forall (scored n) (seen st)
  /\ scored n (best_solution_df st)
  /\ scored n (next_state_df st).

(** A small linear congruential generator, for running the randomised
    functions on concrete inputs. *)
Definition lcg (g : nat) : nat := ((7 * g + 3) mod 101)%nat.

#[global] Instance lcg_source : RandomSource nat := {|
  randbelow := fun _ g => (g, lcg g);
  random_float := fun g => (inject_Z (Z.of_nat (g mod 10)) / 10, lcg g)
|}.

(** An airplane with no fuel beyond its reserve: urgent, with no flying
    time left. *)
Definition grounded_airplane : Airplane :=
  {| id := 2;
     fuel_consumption_rate := 10;
     expected_landing_time := 2;
     fuel_level := 600;
     emergency_fuel := 600;
     fuel_level_final := 0;
     remaining_flying_time := 0 # 10;
     is_urgent := true |}.

Definition urgent_airplanes : list Airplane :=
  [low_fuel_airplane; grounded_airplane].

(** An acceptance test for simulated annealing that always accepts. *)
Definition always_accept (T : float) (delta : Q) (g : nat) : bool * nat :=
  (true, lcg g).

(** A rendering of a schedule for the tabu list: one character per row,
    chosen by the airplane id. *)
Definition render_ids (df : DataFrame) : string :=
  fold_right
    (fun r s => String (Ascii.ascii_of_N (Z.to_N (airplane_ID r))) s)
    EmptyString (rows df).

(** Three airplanes with ample fuel, expected after one, two and three
    hours. *)
Definition ample_airplane (i : Z) (elt : Q) : Airplane :=
  {| id := i;
     fuel_consumption_rate := 10;
     expected_landing_time := elt;
     fuel_level := 1300;
     emergency_fuel := 600;
     fuel_level_final := 700;
     remaining_flying_time := 700 # 10;
     is_urgent := false |}.

Definition three_airplanes : list Airplane :=
  [ample_airplane 1 1; ample_airplane 2 2; ample_airplane 3 3].

(** ** [generate_airplane_stream] *)

Section Generation.
Context {G : Type} `{RandomSource G}.

(** [random.uniform(a, b)], which the library computes as
    [a + (b - a) * random()]. *)
Definition uniform (a b : Q) (g : G) : Q * G :=
  let '(r, g) := random_float g in (a + (b - a) * r, g).

(** [Airplane(id, min_fuel, max_fuel, min_arrival_time, max_arrival_time)]:
    the three draws, in the order of the constructor, then the
    computation of the derived fields. *)
Definition Airplane_new (i : Z)
  (min_fuel max_fuel min_arrival_time max_arrival_time : Q) (g : G)
  : Result (Airplane * G) :=
  let '(rate, g) := uniform 5 20 g in
  let '(elt, g) := uniform min_arrival_time max_arrival_time g in
  let '(fl, g) := uniform min_fuel max_fuel g in
  a ← Airplane_init i {| draw_rate := rate; draw_arrival := elt; draw_fuel := fl |};
  mret (a, g).

(** The list comprehension over [range(1, num_airplanes + 1)]. *)
Fixpoint generate_airplanes (ids : list nat)
  (min_fuel max_fuel min_arrival_time max_arrival_time : Q) (g : G)
  : Result (list Airplane * G) :=
  match ids with
  | [] => Ok ([], g)
  | i :: ids' =>
      '(a, g) ← Airplane_new (Z.of_nat i) min_fuel max_fuel
                  min_arrival_time max_arrival_time g;
      '(l, g) ← generate_airplanes ids' min_fuel max_fuel
                  min_arrival_time max_arrival_time g;
      mret (a :: l, g)
  end.

Definition generate_airplane_stream (num_airplanes : nat)
  (min_fuel max_fuel min_arrival_time max_arrival_time : Q) (g : G)
  : Result (list Airplane * G) :=
  generate_airplanes (range 1 (num_airplanes + 1))
    min_fuel max_fuel min_arrival_time max_arrival_time g.

(** ** [GeneticAlgorithmScheduler]: initial population, crossover, mutation *)

(** [random.randint(a, b)]: an empty range is a [ValueError]. *)
Definition randint (a b : Z) (g : G) : Result (Z * G) :=
  if (b <? a)%Z then Raise ValueError
  else
    let width := Z.to_nat (b - a + 1) in
    let '(x, g) := randbelow width g in
    Ok ((a + Z.of_nat (x mod width))%Z, g).

(** [random.sample(population, len(population))]: the library's pool
    selection.  At each of the [k] steps a position of the live pool is
    drawn, its element is emitted, and the last live element is moved into
    its place. *)
Fixpoint sample_pool {A : Type} (k : nat) (pool : list A) (g : G) : list A * G :=
  match k with
  | O => ([], g)
  | S k' =>
      let '(x, g) := randbelow (length pool) g in
      let j := (x mod length pool)%nat in
      match pool !! j, last pool with
      | Some picked, Some moved =>
          let pool := take (length pool - 1) (<[j := moved]> pool) in
          let '(result, g) := sample_pool k' pool g in
          (picked :: result, g)
      | _, _ => ([], g)
      end
  end.

(** [generate_initial_schedule] *)
Definition generate_initial_schedule (airplane_stream : list Airplane) (g : G)
  : DataFrame * G :=
  let '(shuffled_stream, g) :=
    sample_pool (length airplane_stream) airplane_stream g in
  (schedule_landings shuffled_stream, g).

(** [generate_initial_population] *)
Fixpoint generate_initial_population (population_size : nat)
  (airplane_stream : list Airplane) (g : G) : list DataFrame * G :=
  match population_size with
  | O => ([], g)
  | S k =>
      let '(schedule, g) := generate_initial_schedule airplane_stream g in
      let '(population, g) := generate_initial_population k airplane_stream g in
      (schedule :: population, g)
  end.

(** [pd.concat([top.iloc[:point], bottom.iloc[point:]]).reset_index(drop=True)]:
    the columns of the result are those of either part. *)
Definition concat_at (point : nat) (top bottom : DataFrame) : DataFrame :=
  {| rows := take point (rows top) ++ drop point (rows bottom);
     has_score_column := has_score_column top || has_score_column bottom |}.

(** [crossover] *)
Definition crossover (crossover_rate : Q) (parent1 parent2 : DataFrame) (g : G)
  : Result (DataFrame * DataFrame * G) :=
  let '(r, g) := random_float g in
  if Qltb r crossover_rate then
    '(crossover_point, g) ← randint 1 (Z.of_nat (length (rows parent1)) - 2) g;
    let point := Z.to_nat crossover_point in
    mret (concat_at point parent1 parent2, concat_at point parent2 parent1, g)
  else mret (parent1, parent2, g).

(** [schedule[schedule['Airplane ID'] == i].index[0]]: the position of the
    first row of airplane [i]. *)
Fixpoint first_index_of (i : Z) (l : list Row) : option nat :=
  match l with
  | [] => None
  | r :: l' => if Z.eqb (airplane_ID r) i then Some O
               else option_map S (first_index_of i l')
  end.

(** The simultaneous assignment that exchanges the landing times of the
    rows [index] and [replacement_index]. *)
Definition swap_landing_times (index replacement_index : nat) (l : list Row)
  : list Row :=
  match l !! index, l !! replacement_index with
  | Some r, Some r' =>
      <[replacement_index := set_actual_landing_time (actual_landing_time r) r']>
        (<[index := set_actual_landing_time (actual_landing_time r') r]> l)
  | _, _ => l
  end.

(** One pass of the loop of [mutate] at position [index]. *)
Definition mutate_at (mutation_rate : Q) (airplane_stream : list Airplane)
  (index : nat) (schedule : DataFrame) (g : G) : Result (DataFrame * G) :=
  let '(r, g) := random_float g in
  if Qltb r mutation_rate then
    '(replacement_plane, g) ← choice airplane_stream g;
    match first_index_of (id replacement_plane) (rows schedule) with
    | None => Raise IndexError
    | Some replacement_index =>
        mret ({| rows := swap_landing_times index replacement_index (rows schedule);
                 has_score_column := has_score_column schedule |}, g)
    end
  else mret (schedule, g).

Fixpoint mutate_loop (mutation_rate : Q) (airplane_stream : list Airplane)
  (indices : list nat) (schedule : DataFrame) (g : G) : Result (DataFrame * G) :=
  match indices with
  | [] => Ok (schedule, g)
  | index :: rest =>
      '(schedule, g) ← mutate_at mutation_rate airplane_stream index schedule g;
      mutate_loop mutation_rate airplane_stream rest schedule g
  end.

(** [mutate]; the frame is changed in place and returned. *)
Definition mutate (mutation_rate : Q) (airplane_stream : list Airplane)
  (schedule : DataFrame) (g : G) : Result (DataFrame * G) :=
  mutate_loop mutation_rate airplane_stream
    (range 0 (length (rows schedule))) schedule g.

(** A source whose [random()] stays in the half-open unit interval. *)
Definition unit_interval_source : Prop :=
  forall g : G, 0 <= (random_float g).1 /\ (random_float g).1 < 1.

End Generation.

(** ** Predicates used in the statements *)

(** A record of [schedule_landings] against the airplane it was built
    from. *)
Definition record_of (a : Airplane) (r : Row) : Prop :=
  airplane_ID r = id a
  /\ urgent r = is_urgent a
  /\ score r = None
  /\ (is_urgent a = true -> actual_landing_time r <= remaining_flying_time a)
  /\ (is_urgent a = false -> expected_landing_time a <= actual_landing_time r).

(** The state of the loop of [schedule_landings]: the counter is the
    number of records, every record sits on the runway of its position,
    each of the last three records left its runway busy for three hours
    after it, and a record that is not urgent keeps its distance from the
    record three places before it. *)
Definition landing_inv (st : list Q * nat * list Row) : Prop :=
  let '(avail, idx, acc) := st in
  idx = length acc
  /\ length avail = 3%nat
  /\ (forall k r, acc !! k = Some r -> landing_strip r = S (k mod 3))
  /\ (forall k r, acc !! k = Some r -> (idx <= k + 3)%nat ->
        avail !! (k mod 3)%nat = Some (actual_landing_time r + 3))
  /\ (forall k r r', acc !! k = Some r -> acc !! (k + 3)%nat = Some r' ->
        urgent r' = false ->
        actual_landing_time r + 3 + 3 / 60 <= actual_landing_time r').

(** No two elements of [l] have equal keys. *)
Definition distinct_keys {A : Type} (key : A -> Q) (l : list A) : Prop :=
  ForallOrdPairs (fun x y => ~ key x == key y) l.

(** A row as the recomputation of [get_Hill_Tabu_successors] leaves it. *)
Definition recomputed_row (airplane_stream : list Airplane) (r r' : Row) : Prop :=
  airplane_ID r' = airplane_ID r
  /\ urgent r' = urgent r
  /\ landing_strip r' = landing_strip r
  /\ match lookup_airplane airplane_stream r with
     | Some airplane =>
         expected_landing_time airplane <= actual_landing_time r'
         /\ score r' = Some (record_score airplane (actual_landing_time r'))
     | None => r' = r
     end.

(** The state of simulated annealing when both schedules it holds are
    reorderings of the scored initial schedule and both scores are that
    schedule's total. *)
Definition annealing_inv {G : Type} (airplane_stream : list Airplane)
  (st : @AnnealingState G) : Prop :=
  let init := calculate_score (schedule_landings airplane_stream) airplane_stream in
  rows (current_schedule st) ≡ₚ rows init
  /\ rows (best_schedule st) ≡ₚ rows init
  /\ current_score st == sum_scores (rows init)
  /\ best_score st == sum_scores (rows init).

(** What a record is apart from its landing time. *)
Definition row_identity (r : Row) : Z * (bool * (nat * option Q)) :=
  (airplane_ID r, (urgent r, (landing_strip r, score r))).

(** A generated airplane: construction invariants, and the draws within
    their bounds. *)
Definition generated (min_arrival_time max_arrival_time : Q) (a : Airplane) : Prop :=
  airplane_wf a
  /\ 5 <= fuel_consumption_rate a <= 20
  /\ (min_arrival_time <= max_arrival_time ->
      min_arrival_time <= expected_landing_time a <= max_arrival_time).

(** Four airplanes with ample fuel; the fourth is expected between the
    first two. *)
Definition four_airplanes : list Airplane :=
  three_airplanes ++ [ample_airplane 4 (3 # 2)].

(** * Properties *)

(** ** Comparisons *)

Lemma Qltb_lt x y : Qltb x y = true <-> x < y.
Proof.
  unfold Qltb. rewrite negb_true_iff. split.
  - intros H. apply Qnot_le_lt. intros Hle.
    apply Qle_bool_iff in Hle. congruence.
  - intros H. destruct (Qle_bool y x) eqn:E; [|reflexivity].
    apply Qle_bool_iff in E. exfalso. apply (Qlt_not_le _ _ H E).
Qed.

Lemma Qltb_ge x y : Qltb x y = false <-> y <= x.
Proof.
  unfold Qltb. rewrite negb_false_iff. apply Qle_bool_iff.
Qed.

Lemma py_max_l a b : a <= py_max a b.
Proof.
  unfold py_max. destruct (Qltb a b) eqn:E.
  - apply Qltb_lt in E. lra.
  - lra.
Qed.

Lemma py_max_r a b : b <= py_max a b.
Proof.
  unfold py_max. destruct (Qltb a b) eqn:E.
  - lra.
  - apply Qltb_ge in E. lra.
Qed.

(** ** Sorting *)

Section SortedFacts.
Context {A : Type} (key : A -> Q).

Lemma insert_by_perm x l : insert_by key x l ≡ₚ x :: l.
Proof.
  induction l as [|y l IH]; simpl; [done|].
  destruct (Qltb (key y) (key x)); [|done].
  rewrite IH. apply Permutation_swap.
Qed.

Lemma sorted_perm l : sorted key l ≡ₚ l.
Proof.
  induction l as [|x l IH]; simpl; [done|].
  by rewrite insert_by_perm, IH.
Qed.

End SortedFacts.

(** ** The airplane entity *)

Lemma Airplane_init_ok i d :
  0 < draw_rate d ->
  Airplane_init i d =
    Ok {| id := i;
          fuel_consumption_rate := draw_rate d;
          expected_landing_time := draw_arrival d;
          fuel_level := py_max (draw_fuel d) (draw_rate d * 60);
          emergency_fuel := draw_rate d * 60;
          fuel_level_final := py_max (draw_fuel d) (draw_rate d * 60) - draw_rate d * 60;
          remaining_flying_time :=
            (py_max (draw_fuel d) (draw_rate d * 60) - draw_rate d * 60) / draw_rate d;
          is_urgent :=
            Qltb (py_max (draw_fuel d) (draw_rate d * 60) - draw_rate d * 60)
                 (draw_rate d * 60)
            || Qltb ((py_max (draw_fuel d) (draw_rate d * 60) - draw_rate d * 60)
                     / draw_rate d) 1 |}.
Proof.
  intros Hr. unfold Airplane_init.
  destruct (Qeq_bool (draw_rate d) 0) eqn:E; [|reflexivity].
  apply Qeq_bool_iff in E. lra.
Qed.

Lemma Airplane_init_wf i d a :
  0 < draw_rate d -> Airplane_init i d = Ok a -> airplane_wf a.
Proof.
  intros Hr Ha. rewrite (Airplane_init_ok i d Hr) in Ha.
  injection Ha as <-. unfold airplane_wf; simpl.
  repeat split; try assumption; try reflexivity.
  apply py_max_r.
Qed.

Lemma mark_urgent_wf a : airplane_wf a -> airplane_wf (mark_urgent a).
Proof. intros H; exact H. Qed.

Lemma wf_remaining_nonneg a : airplane_wf a -> 0 <= remaining_flying_time a.
Proof.
  intros (Hr & Hle & Hf & Ht). rewrite Ht.
  apply Qle_shift_div_l; [assumption|]. lra.
Qed.

(** C3. Whatever the three draws are, provided the consumption rate is
    positive, the constructor succeeds and the airplane it builds has
    [emergency_fuel = fuel_consumption_rate * 60],
    [fuel_level_final = fuel_level - emergency_fuel],
    [fuel_level >= emergency_fuel] and [fuel_level_final >= 0]. *)
Theorem Airplane_init_fuel_invariant (i : Z) (d : Draws) :
  0 < draw_rate d ->
  exists a, Airplane_init i d = Ok a
    /\ emergency_fuel a = fuel_consumption_rate a * 60
    /\ fuel_level_final a = fuel_level a - emergency_fuel a
    /\ emergency_fuel a <= fuel_level a
    /\ 0 <= fuel_level_final a.
Proof.
  intros Hr. eexists. split; [apply (Airplane_init_ok i d Hr)|]. simpl.
  repeat split; try reflexivity.
  - apply py_max_r.
  - pose proof (py_max_r (draw_fuel d) (draw_rate d * 60)). lra.
Qed.

Lemma Airplane_init_fuel_invariant_witness :
  exists a,
    Airplane_init 1 {| draw_rate := 10; draw_arrival := 5; draw_fuel := 700 |} = Ok a
    /\ emergency_fuel a = fuel_consumption_rate a * 60
    /\ fuel_level_final a = fuel_level a - emergency_fuel a
    /\ emergency_fuel a <= fuel_level a
    /\ 0 <= fuel_level_final a.
Proof.
  apply (Airplane_init_fuel_invariant 1
           {| draw_rate := 10; draw_arrival := 5; draw_fuel := 700 |}).
  reflexivity.
Defined.

(** ** Urgency as recomputed by hill climbing and tabu search *)

(** C1 (as the code has it). After the recomputation that opens hill
    climbing and tabu search, an airplane is urgent exactly when
    [fuel_level_final < emergency_fuel] or
    [remaining_flying_time < expected_landing_time]. *)
Theorem recompute_urgency_spec (airplane_stream : list Airplane) (a : Airplane) :
  a ∈ recompute_urgency airplane_stream ->
  (is_urgent a = true <->
   fuel_level_final a < emergency_fuel a
   \/ remaining_flying_time a < expected_landing_time a).
Proof.
  unfold recompute_urgency. intros Hin.
  apply list_elem_of_fmap in Hin as (b & -> & _).
  unfold mark_urgent; simpl.
  rewrite orb_true_iff, !Qltb_lt. reflexivity.
Qed.

Lemma low_fuel_airplane_constructed :
  Airplane_init 1 low_fuel_draws = Ok low_fuel_airplane.
Proof. reflexivity. Qed.

Lemma recompute_urgency_spec_witness :
  low_fuel_airplane ∈ recompute_urgency [low_fuel_airplane]
  /\ (is_urgent low_fuel_airplane = true <->
      fuel_level_final low_fuel_airplane < emergency_fuel low_fuel_airplane
      \/ remaining_flying_time low_fuel_airplane < expected_landing_time low_fuel_airplane).
Proof.
  assert (Hin : low_fuel_airplane ∈ recompute_urgency [low_fuel_airplane]).
  { apply list_elem_of_here. }
  split; [exact Hin|].
  exact (recompute_urgency_spec [low_fuel_airplane] low_fuel_airplane Hin).
Defined.

(** C1 (as stated) fails: the airplane built from [low_fuel_draws] is
    marked urgent by the recomputation although its remaining flying time
    (10) is not below its expected landing time (5). *)
Lemma recompute_urgency_not_alternate_formula :
  ~ (forall a0, Airplane_init 1 low_fuel_draws = Ok a0 ->
     forall a, a ∈ recompute_urgency [a0] ->
       (is_urgent a = true <->
        remaining_flying_time a < expected_landing_time a)).
Proof.
  intros Hall.
  specialize (Hall _ low_fuel_airplane_constructed low_fuel_airplane).
  destruct Hall as [Hlt _]; [apply list_elem_of_here|].
  specialize (Hlt eq_refl). revert Hlt. apply Qle_not_lt.
  discriminate.
Qed.

(** ** [schedule_landings]: one record per airplane *)

Lemma sorted_airplanes_perm airplane_stream :
  sorted_airplanes airplane_stream ≡ₚ airplane_stream.
Proof.
  unfold sorted_airplanes. rewrite !sorted_perm.
  induction airplane_stream as [|a l IH]; [done|].
  rewrite !filter_cons. destruct (is_urgent a) eqn:E.
  - rewrite decide_True by done. rewrite decide_False by done.
    simpl. by rewrite IH.
  - rewrite decide_False by done. rewrite decide_True by done.
    rewrite <- Permutation_middle. by rewrite IH.
Qed.

Lemma schedule_landings_rows airplane_stream :
  rows (schedule_landings airplane_stream) =
  (fold_left landing_step (sorted_airplanes airplane_stream) ([0; 0; 0], O, [])).2.
Proof.
  unfold schedule_landings.
  by destruct (fold_left _ _ _) as [[? ?] ?].
Qed.

Lemma landing_fold_ids l : forall st,
  map airplane_ID (fold_left landing_step l st).2 = map airplane_ID st.2 ++ map id l.
Proof.
  induction l as [|a l IH]; intros [[avail idx] acc]; simpl.
  - by rewrite app_nil_r.
  - rewrite IH. simpl. rewrite map_app. simpl. by rewrite <- app_assoc.
Qed.

(** The records come out in the order of the sorted airplanes, one each. *)
Lemma schedule_landings_ids_sorted airplane_stream :
  map airplane_ID (rows (schedule_landings airplane_stream))
  = map id (sorted_airplanes airplane_stream).
Proof. rewrite schedule_landings_rows, landing_fold_ids. reflexivity. Qed.

(** C9. The schedule returned by [schedule_landings] has one record per
    input airplane, and the airplane ids of its records are the ids of the
    input list, each as many times as it occurs there. *)
Theorem schedule_landings_ids (airplane_stream : list Airplane) :
  length (rows (schedule_landings airplane_stream)) = length airplane_stream
  /\ map airplane_ID (rows (schedule_landings airplane_stream)) ≡ₚ map id airplane_stream.
Proof.
  pose proof (schedule_landings_ids_sorted airplane_stream) as Hids.
  split.
  - rewrite <- (length_map airplane_ID), Hids, length_map.
    apply Permutation_length, sorted_airplanes_perm.
  - rewrite Hids. apply Permutation_map, sorted_airplanes_perm.
Qed.

(** ** [schedule_landings]: landing times are not negative *)

Lemma landing_step_nonneg st a :
  (is_urgent a = true -> 0 <= remaining_flying_time a) ->
  landing_state_nonneg st -> landing_state_nonneg (landing_step st a).
Proof.
  destruct st as [[avail idx] acc]. intros Hrft [Havail Hacc].
  unfold landing_step, landing_state_nonneg in *. cbv zeta. cbn [fst snd] in *.
  assert (Hslot : 0 <= nth (idx mod 3) avail 0).
  { rewrite nth_lookup. destruct (avail !! (idx mod 3)%nat) as [t|] eqn:E; simpl.
    - rewrite Forall_lookup in Havail. by apply (Havail _ _ E).
    - apply Qle_refl. }
  assert (Hgap : 0 <= 3 / 60) by (vm_compute; discriminate).
  assert (Hnext : 0 <= nth (idx mod 3) avail 0 + 3 / 60).
  { revert Hslot Hgap. generalize (nth (idx mod 3) avail 0) (3 / 60).
    intros t c Ht Hc. lra. }
  clear Hslot Hgap. revert Hnext.
  generalize (nth (idx mod 3) avail 0 + 3 / 60). intros next Hnext.
  assert (Hmax : 0 <= py_max (expected_landing_time a) next).
  { apply (Qle_trans _ next); [exact Hnext|apply py_max_r]. }
  revert Hmax. generalize (py_max (expected_landing_time a) next). intros m Hm.
  assert (Hactual : 0 <= (if is_urgent a && Qltb (remaining_flying_time a) m
                          then remaining_flying_time a else m)).
  { destruct (is_urgent a); simpl; [|exact Hm].
    destruct (Qltb _ _); [by apply Hrft|exact Hm]. }
  revert Hactual.
  generalize (if is_urgent a && Qltb (remaining_flying_time a) m
              then remaining_flying_time a else m).
  intros actual Hactual. split.
  - apply Forall_insert; [done|]. lra.
  - apply Forall_app. split; [done|]. by constructor.
Qed.

Lemma landing_fold_nonneg l : forall st,
  Forall (fun a => is_urgent a = true -> 0 <= remaining_flying_time a) l ->
  landing_state_nonneg st -> landing_state_nonneg (fold_left landing_step l st).
Proof.
  induction l as [|a l IH]; intros st Hl Hst; simpl; [done|].
  inversion Hl; subst. apply IH; [done|]. by apply landing_step_nonneg.
Qed.

(** C4. When every airplane of the input satisfies the construction
    invariants (positive consumption rate, fuel level at least the
    emergency reserve, the derived fields computed from them), every
    record of the schedule built by [schedule_landings] has a landing time
    that is not negative, urgent records clamped to their remaining flying
    time included. *)
Theorem schedule_landings_nonneg (airplane_stream : list Airplane) (r : Row) :
  Forall airplane_wf airplane_stream ->
  r ∈ rows (schedule_landings airplane_stream) ->
  0 <= actual_landing_time r.
Proof.
  intros Hwf Hr. rewrite schedule_landings_rows in Hr.
  assert (Hst : landing_state_nonneg
                  (fold_left landing_step (sorted_airplanes airplane_stream)
                     ([0; 0; 0], O, []))).
  { apply landing_fold_nonneg.
    - rewrite (sorted_airplanes_perm airplane_stream).
      eapply Forall_impl; [exact Hwf|]. intros a Ha _. by apply wf_remaining_nonneg.
    - split; simpl; [|constructor].
      repeat constructor; apply Qle_refl. }
  destruct Hst as [_ Hrows]. rewrite Forall_forall in Hrows. by apply Hrows.
Qed.

Lemma urgent_airplanes_wf : Forall airplane_wf urgent_airplanes.
Proof.
  repeat constructor; unfold airplane_wf; simpl;
    repeat split; try reflexivity; try discriminate.
Qed.

Lemma schedule_landings_nonneg_witness :
  Forall airplane_wf urgent_airplanes
  /\ {| airplane_ID := 2; actual_landing_time := 0 # 10; urgent := true;
        landing_strip := 1; score := None |} ∈ rows (schedule_landings urgent_airplanes)
  /\ 0 <= 0 # 10.
Proof.
  assert (Hin : {| airplane_ID := 2; actual_landing_time := 0 # 10; urgent := true;
                   landing_strip := 1; score := None |}
                ∈ rows (schedule_landings urgent_airplanes)).
  { apply list_elem_of_here. }
  split; [exact urgent_airplanes_wf|]. split; [exact Hin|].
  exact (schedule_landings_nonneg urgent_airplanes _ urgent_airplanes_wf Hin).
Defined.

(** ** [get_successors] *)

Lemma swap_rows_lookup i j l k :
  (i < length l)%nat -> (j < length l)%nat -> i <> j ->
  swap_rows i j l !! k =
    if decide (k = i) then l !! j
    else if decide (k = j) then l !! i
    else l !! k.
Proof.
  intros Hi Hj Hij. unfold swap_rows.
  destruct (lookup_lt_is_Some_2 l i Hi) as [ri Hri].
  destruct (lookup_lt_is_Some_2 l j Hj) as [rj Hrj].
  rewrite Hri, Hrj.
  destruct (decide (k = i)) as [->|Hki].
  - rewrite list_lookup_insert_ne by done.
    rewrite list_lookup_insert_eq by done. done.
  - destruct (decide (k = j)) as [->|Hkj].
    + rewrite list_lookup_insert_eq by (by rewrite length_insert). done.
    + rewrite !list_lookup_insert_ne by done. done.
Qed.

Lemma swap_rows_length i j l : length (swap_rows i j l) = length l.
Proof.
  unfold swap_rows. destruct (l !! i), (l !! j); try done.
  by rewrite !length_insert.
Qed.

Lemma range_length a b : length (range a b) = (b - a)%nat.
Proof. unfold range. apply length_seq. Qed.

Lemma elem_of_range a b k : k ∈ range a b <-> (a <= k < b)%nat.
Proof. unfold range. rewrite list_elem_of_In, in_seq. lia. Qed.

Lemma pairs_count {B : Type} (f : nat -> nat -> B) n k :
  (k <= n)%nat ->
  (2 * length (flat_map (fun i => map (f i) (range (i + 1) n)) (seq (n - k) k))
   = k * (k - 1))%nat.
Proof.
  induction k as [|k IH]; intros Hk; [done|].
  cbn [seq flat_map]. rewrite length_app, length_map, range_length.
  replace (S (n - S k)) with (n - k)%nat by lia.
  specialize (IH ltac:(lia)). nia.
Qed.

(** C5. On a schedule with at most one record [get_successors] returns
    the one-element list holding that very schedule.  On a schedule with
    [n >= 2] records it returns [n(n-1)/2] schedules; they are exactly the
    schedules obtained by exchanging the records at two positions [i < j],
    and such a schedule has the input's record [j] at position [i], the
    input's record [i] at position [j] and the input's records everywhere
    else, with every field (landing time and score included) as it was. *)
Theorem get_successors_spec (df : DataFrame) (airplane_stream : list Airplane) :
  ((length (rows df) <= 1)%nat -> get_successors df airplane_stream = [df])
  /\ ((2 <= length (rows df))%nat ->
      length (get_successors df airplane_stream)
        = (length (rows df) * (length (rows df) - 1) / 2)%nat
      /\ (forall s, s ∈ get_successors df airplane_stream <->
            exists i j, (i < j < length (rows df))%nat /\ s = iloc_swap i j df)
      /\ (forall i j, (i < j < length (rows df))%nat ->
            has_score_column (iloc_swap i j df) = has_score_column df
            /\ forall k, rows (iloc_swap i j df) !! k =
                 if decide (k = i) then rows df !! j
                 else if decide (k = j) then rows df !! i
                 else rows df !! k)).
Proof.
  unfold get_successors. set (n := length (rows df)). split.
  - intros Hn. apply Nat.leb_le in Hn. by rewrite Hn.
  - intros Hn. destruct (n <=? 1)%nat eqn:E; [apply Nat.leb_le in E; lia|].
    split; [|split].
    + pose proof (pairs_count (fun i j => iloc_swap i j df) n n (le_n n)) as Hc.
      rewrite Nat.sub_diag in Hc. unfold range at 2. rewrite Nat.sub_0_r.
      apply Nat.div_unique_exact; [done|]. lia.
    + intros s. rewrite list_elem_of_In, in_flat_map. split.
      * intros (i & Hi & Hs). apply in_map_iff in Hs as (j & <- & Hj).
        apply list_elem_of_In, elem_of_range in Hi.
        apply list_elem_of_In, elem_of_range in Hj.
        exists i, j. split; [lia|done].
      * intros (i & j & Hij & ->). exists i. split.
        -- apply list_elem_of_In, elem_of_range. lia.
        -- apply in_map_iff. exists j. split; [done|].
           apply list_elem_of_In, elem_of_range. lia.
    + intros i j Hij. split; [done|]. intros k. simpl.
      apply swap_rows_lookup; lia.
Qed.

Lemma get_successors_spec_witness :
  get_successors (schedule_landings [ample_airplane 1 1]) [ample_airplane 1 1]
    = [schedule_landings [ample_airplane 1 1]]
  /\ length (get_successors (schedule_landings three_airplanes) three_airplanes) = 3%nat.
Proof.
  split.
  - apply (proj1 (get_successors_spec (schedule_landings [ample_airplane 1 1])
                    [ample_airplane 1 1])).
    apply le_n.
  - destruct (proj2 (get_successors_spec (schedule_landings three_airplanes)
                       three_airplanes)) as [Hlen _].
    + apply le_S, le_n.
    + exact Hlen.
Defined.

(** ** The worked example: three airplanes with ample fuel *)

Lemma Permutation_three {A : Type} (l : list A) a b c :
  l ≡ₚ [a; b; c] ->
  l = [a; b; c] \/ l = [a; c; b] \/ l = [b; a; c]
  \/ l = [b; c; a] \/ l = [c; a; b] \/ l = [c; b; a].
Proof.
  intros Hp. pose proof (Permutation_length Hp) as Hlen.
  destruct l as [|x [|y [|z [|]]]]; simpl in Hlen; try lia.
  assert (Hx : x ∈ [a; b; c]) by (rewrite <- Hp; apply list_elem_of_here).
  rewrite !elem_of_cons, elem_of_nil in Hx.
  destruct Hx as [->|[->|[->|[]]]].
  - apply Permutation_cons_inv in Hp. symmetry in Hp.
    apply Permutation_length_2_inv in Hp as [->| ->]; tauto.
  - rewrite <- (Permutation_swap a b [c]) in Hp.
    apply Permutation_cons_inv in Hp. symmetry in Hp.
    apply Permutation_length_2_inv in Hp as [->| ->]; tauto.
  - assert (Hrot : [a; b; c] ≡ₚ c :: [a; b]).
    { change [a; b; c] with ([a; b] ++ [c]). by rewrite Permutation_app_comm. }
    rewrite Hrot in Hp.
    apply Permutation_cons_inv in Hp. symmetry in Hp.
    apply Permutation_length_2_inv in Hp as [->| ->]; tauto.
Qed.

Lemma sorted_airplanes_non_urgent l :
  Forall (fun a => is_urgent a = false) l ->
  sorted_airplanes l = sorted expected_landing_time l.
Proof.
  intros Hl. unfold sorted_airplanes.
  assert (Hf : filter (fun ap => is_urgent ap = true) l = []
               /\ filter (fun ap => is_urgent ap = false) l = l).
  { induction Hl as [|a l Ha _ [IHu IHn]]; [done|].
    simpl in Ha. rewrite !filter_cons.
    destruct (decide (is_urgent a = true)) as [e|_]; [by rewrite Ha in e|].
    destruct (decide (is_urgent a = false)); [|contradiction].
    by rewrite IHn. }
  destruct Hf as [-> ->]. reflexivity.
Qed.

Ltac decide_Qltb :=
  repeat match goal with
  | |- context [Qltb ?x ?y] =>
      let E := fresh "E" in
      destruct (Qltb x y) eqn:E;
      [apply Qltb_lt in E | apply Qltb_ge in E];
      try (exfalso; lra); simpl
  end.

Lemma sorted_three (a1 a2 a3 : Airplane) l :
  l ≡ₚ [a1; a2; a3] ->
  expected_landing_time a1 == 1 ->
  expected_landing_time a2 == 2 ->
  expected_landing_time a3 == 3 ->
  sorted expected_landing_time l = [a1; a2; a3].
Proof.
  intros Hp H1 H2 H3.
  destruct (Permutation_three _ _ _ _ Hp) as [->|[->|[->|[->|[->| ->]]]]];
    simpl; decide_Qltb; reflexivity.
Qed.

Lemma lookup_airplane_unique airplane_stream a r :
  NoDup (map id airplane_stream) ->
  a ∈ airplane_stream ->
  airplane_ID r = id a ->
  lookup_airplane airplane_stream r = Some a.
Proof.
  unfold lookup_airplane. intros Hnd Ha ->.
  induction airplane_stream as [|b l IH]; [by apply elem_of_nil in Ha|].
  simpl in *. apply NoDup_cons in Hnd as [Hb Hnd].
  apply elem_of_cons in Ha as [->|Ha].
  - by rewrite Z.eqb_refl.
  - destruct (Z.eqb (id b) (id a)) eqn:E; [|by apply IH].
    apply Z.eqb_eq in E. exfalso. apply Hb. rewrite E.
    apply list_elem_of_fmap. by exists a.
Qed.

Lemma record_score_on_time a :
  is_urgent a = false -> record_score a (expected_landing_time a) == 1000.
Proof.
  intros Hu. unfold record_score. rewrite Hu.
  assert (E : expected_landing_time a - expected_landing_time a == 0) by ring.
  rewrite E. reflexivity.
Qed.

Lemma py_max_gap t : 1 <= t -> py_max t (0 + 3 / 60) = t.
Proof.
  intros Ht. unfold py_max.
  destruct (Qltb t (0 + 3 / 60)) eqn:E; [|done].
  apply Qltb_lt in E. exfalso.
  assert (Hgap : 0 + 3 / 60 <= 1) by (vm_compute; discriminate).
  revert E Hgap. generalize (0 + 3 / 60). intros c E Hgap. lra.
Qed.

(** C2. Take three non-urgent airplanes with distinct ids, expected after
    1, 2 and 3 hours, in any input order.  [schedule_landings] lists them
    in that order on runways 1, 2 and 3, each landing at its expected
    time; [evaluate_landing_schedule] then gives each record the score
    1000 and returns the total 3000. *)
Theorem worked_example (a1 a2 a3 : Airplane) (airplane_stream : list Airplane) :
  airplane_stream ≡ₚ [a1; a2; a3] ->
  NoDup [id a1; id a2; id a3] ->
  is_urgent a1 = false -> is_urgent a2 = false -> is_urgent a3 = false ->
  expected_landing_time a1 == 1 ->
  expected_landing_time a2 == 2 ->
  expected_landing_time a3 == 3 ->
  schedule_landings airplane_stream =
    {| rows := [ mkRow (id a1) (expected_landing_time a1) false 1 None;
                 mkRow (id a2) (expected_landing_time a2) false 2 None;
                 mkRow (id a3) (expected_landing_time a3) false 3 None ];
       has_score_column := false |}
  /\ exists s1 s2 s3 total,
       evaluate_landing_schedule (schedule_landings airplane_stream) airplane_stream =
         Ok ({| rows := [ mkRow (id a1) (expected_landing_time a1) false 1 (Some s1);
                          mkRow (id a2) (expected_landing_time a2) false 2 (Some s2);
                          mkRow (id a3) (expected_landing_time a3) false 3 (Some s3) ];
                has_score_column := true |}, total)
       /\ s1 == 1000 /\ s2 == 1000 /\ s3 == 1000 /\ total == 3000.
Proof.
  intros Hp Hnd Hu1 Hu2 Hu3 H1 H2 H3.
  assert (Hsched : schedule_landings airplane_stream =
    {| rows := [ mkRow (id a1) (expected_landing_time a1) false 1 None;
                 mkRow (id a2) (expected_landing_time a2) false 2 None;
                 mkRow (id a3) (expected_landing_time a3) false 3 None ];
       has_score_column := false |}).
  { unfold schedule_landings.
    rewrite sorted_airplanes_non_urgent.
    2:{ rewrite Hp. by repeat constructor. }
    rewrite (sorted_three a1 a2 a3) by done.
    simpl. rewrite Hu1, Hu2, Hu3. simpl.
    rewrite !py_max_gap by lra. reflexivity. }
  split; [exact Hsched|]. rewrite Hsched.
  assert (Hids : NoDup (map id airplane_stream)).
  { by rewrite Hp. }
  assert (Hin : forall a, a ∈ [a1; a2; a3] -> a ∈ airplane_stream).
  { intros a Ha. by rewrite Hp. }
  unfold evaluate_landing_schedule, calculate_score, score_row, row_found. simpl.
  rewrite (lookup_airplane_unique airplane_stream a1), (lookup_airplane_unique airplane_stream a2),
    (lookup_airplane_unique airplane_stream a3);
    try done; try (apply Hin; rewrite !elem_of_cons; tauto).
  simpl. do 4 eexists. split; [reflexivity|].
  pose proof (record_score_on_time a1 Hu1) as E1.
  pose proof (record_score_on_time a2 Hu2) as E2.
  pose proof (record_score_on_time a3 Hu3) as E3.
  repeat split; try assumption.
  rewrite E1, E2, E3. reflexivity.
Qed.

Lemma worked_example_witness :
  schedule_landings [ample_airplane 3 3; ample_airplane 1 1; ample_airplane 2 2] =
    {| rows := [ mkRow 1 1 false 1 None; mkRow 2 2 false 2 None; mkRow 3 3 false 3 None ];
       has_score_column := false |}
  /\ exists s1 s2 s3 total,
       evaluate_landing_schedule
         (schedule_landings [ample_airplane 3 3; ample_airplane 1 1; ample_airplane 2 2])
         [ample_airplane 3 3; ample_airplane 1 1; ample_airplane 2 2] =
         Ok ({| rows := [ mkRow 1 1 false 1 (Some s1);
                          mkRow 2 2 false 2 (Some s2);
                          mkRow 3 3 false 3 (Some s3) ];
                has_score_column := true |}, total)
       /\ s1 == 1000 /\ s2 == 1000 /\ s3 == 1000 /\ total == 3000.
Proof.
  apply (worked_example (ample_airplane 1 1) (ample_airplane 2 2) (ample_airplane 3 3)
           [ample_airplane 3 3; ample_airplane 1 1; ample_airplane 2 2]).
  - apply (Permutation_app_comm [ample_airplane 3 3]
             [ample_airplane 1 1; ample_airplane 2 2]).
  - apply (bool_decide_unpack (NoDup [1%Z; 2%Z; 3%Z])). vm_compute. exact I.
  - reflexivity.
  - reflexivity.
  - reflexivity.
  - reflexivity.
  - reflexivity.
  - reflexivity.
Defined.

(** ** [evaluate_landing_schedule]: rows whose airplane is missing *)

Lemma calculate_score_rows df airplane_stream :
  Forall2 (fun r r' =>
             match lookup_airplane airplane_stream r with
             | Some airplane =>
                 r' = set_score (record_score airplane (actual_landing_time r)) r
             | None => r' = r
             end)
    (rows df) (rows (calculate_score df airplane_stream)).
Proof.
  simpl. induction (rows df) as [|r l IH]; simpl; constructor; [|exact IH].
  unfold score_row. by destruct (lookup_airplane airplane_stream r).
Qed.

(** When the evaluator returns, the rows of the frame it leaves are the
    rows it was given, with the score rewritten by the formula where the
    airplane was found and every field untouched where it was not. *)
Lemma evaluate_landing_schedule_rows df airplane_stream df' total :
  evaluate_landing_schedule df airplane_stream = Ok (df', total) ->
  Forall2 (fun r r' =>
             match lookup_airplane airplane_stream r with
             | Some airplane =>
                 r' = set_score (record_score airplane (actual_landing_time r)) r
             | None => r' = r
             end)
    (rows df) (rows df').
Proof.
  unfold evaluate_landing_schedule.
  destruct (Score_sum _) as [t|e]; simpl; [|discriminate].
  intros [= <- _]. apply calculate_score_rows.
Qed.

(** It returns exactly when the [Score] column exists by the time it is
    summed: it was there already, or some row found its airplane. *)
Lemma evaluate_landing_schedule_returns df airplane_stream :
  (exists out, evaluate_landing_schedule df airplane_stream = Ok out) <->
  has_score_column df = true
  \/ exists r, r ∈ rows df /\ lookup_airplane airplane_stream r <> None.
Proof.
  unfold evaluate_landing_schedule, Score_sum. cbn [calculate_score has_score_column].
  destruct (has_score_column df); simpl.
  - split; [by left|]. intros _. by eexists.
  - destruct (existsb (row_found airplane_stream) (rows df)) eqn:E; simpl.
    + split; [|intros _; by eexists]. intros _. right.
      apply existsb_exists in E as (r & Hr & Hf). exists r.
      split; [by apply list_elem_of_In|].
      unfold row_found in Hf. by destruct (lookup_airplane airplane_stream r).
    + split; [intros [out [=]]|]. intros [[=]|(r & Hr & Hf)].
      assert (existsb (row_found airplane_stream) (rows df) = true); [|congruence].
      apply existsb_exists. exists r. split; [by apply list_elem_of_In|].
      unfold row_found. by destruct (lookup_airplane airplane_stream r).
Qed.

(** C8 (where the code departs from it). A schedule fresh from
    [schedule_landings] has no [Score] column; evaluated against a stream
    that holds none of its airplanes, no row is written, the column is
    never created, and summing it raises [KeyError]. *)
Theorem evaluate_landing_schedule_unmatched_raises :
  lookup_airplane [ample_airplane 2 2]
    {| airplane_ID := 1; actual_landing_time := 1; urgent := false;
       landing_strip := 1; score := None |} = None
  /\ rows (schedule_landings [ample_airplane 1 1]) =
       [ {| airplane_ID := 1; actual_landing_time := 1; urgent := false;
            landing_strip := 1; score := None |} ]
  /\ evaluate_landing_schedule (schedule_landings [ample_airplane 1 1]) [ample_airplane 2 2]
     = Raise KeyError.
Proof. repeat split. Qed.

(** ** [hill_climbing_schedule_landings]: the score trace *)

Section SearchFacts.
Context {G : Type} `{RandomSource G}.

Lemma hill_climbing_loop_scores fuel : forall airplane_stream df current scores g df' scores',
  hill_climbing_loop fuel airplane_stream df current scores g = Some (Ok (df', scores')) ->
  scores' = scores.
Proof.
  induction fuel as [|fuel IH]; intros airplane_stream df current scores g df' scores';
    simpl; [discriminate|].
  destruct (get_Hill_Tabu_successors df airplane_stream g) as [[neighbors g']|e];
    [|discriminate].
  destruct (lowest_neighbor airplane_stream neighbors df current) as [[next_df next]|e];
    [|discriminate].
  destruct (Qeq_bool next current).
  - by intros [= _ <-].
  - apply IH.
Qed.

(** C10. Whenever hill climbing returns, the list of scores in the pair
    it returns is empty. *)
Theorem hill_climbing_scores_empty (fuel : nat) (airplane_stream : list Airplane) (g : G)
  (df : DataFrame) (scores : list Q) :
  hill_climbing_schedule_landings fuel airplane_stream g = Some (Ok (df, scores)) ->
  scores = [].
Proof.
  unfold hill_climbing_schedule_landings.
  destruct (evaluate_landing_schedule _ _) as [[df0 current]|e]; [|discriminate].
  apply hill_climbing_loop_scores.
Qed.

End SearchFacts.

Lemma hill_climbing_scores_empty_witness :
  match hill_climbing_schedule_landings 20 three_airplanes 5%nat with
  | Some (Ok (df, scores)) => scores = []
  | _ => False
  end.
Proof.
  destruct (hill_climbing_schedule_landings 20 three_airplanes 5%nat)
    as [[[df scores]|e]|] eqn:E.
  - exact (hill_climbing_scores_empty 20 three_airplanes 5%nat df scores E).
  - vm_compute in E. discriminate E.
  - vm_compute in E. discriminate E.
Defined.

(** ** [tabu_search_schedule_landings]: the score history *)

Section TabuFacts.
Context {G : Type} `{RandomSource G}.
Variable to_string : DataFrame -> string.

(** A pass that completes appends the current score and advances the
    counter by one. *)
Lemma tabu_body_step airplane_stream max_tabu_size st st' :
  tabu_body to_string airplane_stream max_tabu_size st = Ok st' ->
  scores st' = scores st ++ [tabu_current_score st]
  /\ it st' = (it st + 1)%Z.
Proof.
  unfold tabu_body.
  destruct (get_Hill_Tabu_successors _ _ _) as [[neighbors g]|e]; simpl; [|discriminate].
  destruct (evaluate_landing_schedule _ _) as [[current_df best]|e]; simpl; [|discriminate].
  destruct (tabu_neighbors _ _ _ _ _) as [inner|e]; simpl; [|discriminate].
  destruct (Qle_bool _ _).
  - destruct (random_float g) as [r g']. destruct (Qltb r (1 / 10)).
    + destruct (choice _ _) as [[picked g'']|e]; simpl; [|discriminate].
      destruct (evaluate_landing_schedule picked _) as [[picked' sc]|e]; simpl;
        [|discriminate].
      by intros [= <-].
    + simpl. by intros [= <-].
  - simpl. by intros [= <-].
Qed.

Lemma tabu_loop_history airplane_stream max_iterations max_tabu_size fuel :
  forall st st',
  (it st + Z.of_nat fuel = max_iterations)%Z ->
  Z.of_nat (length (scores st)) = it st ->
  tabu_loop to_string fuel airplane_stream max_iterations max_tabu_size st = Ok st' ->
  it st' = max_iterations /\ Z.of_nat (length (scores st')) = it st'.
Proof.
  induction fuel as [|fuel IH]; intros st st' Hfuel Hlen; simpl.
  - intros [= <-]. split; [lia|done].
  - destruct (it st <? max_iterations)%Z eqn:E; [|apply Z.ltb_ge in E; lia].
    destruct (tabu_body to_string airplane_stream max_tabu_size st) as [st1|e] eqn:Hbody;
      simpl; [|discriminate].
    apply tabu_body_step in Hbody as [Hsc Hit].
    apply IH; [lia|]. rewrite Hsc, length_app. simpl. lia.
Qed.

(** C7. For [max_iterations >= 0], whenever tabu search returns, the score
    history it returns has as many entries as passes of the main loop were
    run: the counter [it] and the length of the history agree on exit,
    they do not exceed [max_iterations] (the loop in fact stops only when
    [it] has reached it), and every completed pass appends exactly one
    score and advances [it] by one. *)
Theorem tabu_search_history_length (airplane_stream : list Airplane)
  (max_iterations max_tabu_size : Z) (g : G) (df : DataFrame) (history : list Q) :
  (0 <= max_iterations)%Z ->
  tabu_search_schedule_landings to_string airplane_stream max_iterations max_tabu_size g
    = Ok (df, history) ->
  (exists st,
     tabu_search_run to_string airplane_stream max_iterations max_tabu_size g = Ok st
     /\ df = landing_schedule_df st
     /\ history = scores st
     /\ Z.of_nat (length history) = it st
     /\ (it st <= max_iterations)%Z
     /\ it st = max_iterations)
  /\ (forall stream st st',
        tabu_body to_string stream max_tabu_size st = Ok st' ->
        scores st' = scores st ++ [tabu_current_score st]
        /\ it st' = (it st + 1)%Z).
Proof.
  intros Hmax Hret. split; [|intros stream st st'; apply tabu_body_step].
  unfold tabu_search_schedule_landings in Hret.
  destruct (tabu_search_run to_string airplane_stream max_iterations max_tabu_size g)
    as [st|e] eqn:Hrun; simpl in Hret; [|discriminate].
  injection Hret as <- <-. exists st. split; [reflexivity|].
  unfold tabu_search_run in Hrun.
  destruct (evaluate_landing_schedule _ _) as [[df0 current]|e]; simpl in Hrun;
    [|discriminate].
  apply tabu_loop_history in Hrun as [Hit Hlen]; simpl; [|lia|done].
  repeat split; try done. lia.
Qed.

End TabuFacts.

Lemma tabu_search_history_length_witness :
  (0 <= 4)%Z
  /\ match tabu_search_schedule_landings render_ids three_airplanes 4 10 5%nat with
     | Ok (df, history) => length history = 4%nat
     | Raise _ => False
     end.
Proof.
  split; [discriminate|].
  destruct (tabu_search_schedule_landings render_ids three_airplanes 4 10 5%nat)
    as [[df history]|e] eqn:E.
  - destruct (tabu_search_history_length render_ids three_airplanes 4 10 5%nat df history)
      as [(st & _ & _ & _ & Hlen & _ & Hit) _].
    + discriminate.
    + exact E.
    + apply Nat2Z.inj. rewrite Hlen. exact Hit.
  - vm_compute in E. discriminate E.
Defined.

(** ** Frames that keep their rows and their [Score] column *)

Lemma iloc_swap_scored n i j df : scored n df -> scored n (iloc_swap i j df).
Proof. intros [Hn Hs]. split; simpl; [by rewrite swap_rows_length|done]. Qed.

Lemma calculate_score_scored n df airplane_stream :
  scored n df -> scored n (calculate_score df airplane_stream).
Proof. intros [Hn Hs]. split; simpl; [by rewrite length_map|by rewrite Hs]. Qed.

Lemma Score_sum_scored n df : scored n df -> Score_sum df = Ok (sum_scores (rows df)).
Proof. intros [_ Hs]. unfold Score_sum. by rewrite Hs. Qed.

Lemma evaluate_landing_schedule_scored n df airplane_stream :
  scored n df ->
  exists df' total,
    evaluate_landing_schedule df airplane_stream = Ok (df', total) /\ scored n df'.
Proof.
  intros Hdf. unfold evaluate_landing_schedule.
  pose proof (calculate_score_scored n df airplane_stream Hdf) as Hc.
  rewrite (Score_sum_scored n _ Hc). simpl. eauto.
Qed.

Lemma lookup_airplane_found airplane_stream r :
  airplane_ID r ∈ map id airplane_stream ->
  row_found airplane_stream r = true.
Proof.
  unfold row_found, lookup_airplane. intros Hin.
  apply list_elem_of_fmap in Hin as (a & Ha & Hin).
  destruct (List.find _ airplane_stream) eqn:E; [done|].
  apply list_elem_of_In in Hin.
  pose proof (find_none _ _ E a Hin) as Hno. simpl in Hno.
  rewrite Ha, Z.eqb_refl in Hno. discriminate.
Qed.

(** Scoring the schedule of a non-empty stream against that stream
    creates the column: every record finds an airplane. *)
Lemma schedule_landings_scored airplane_stream :
  (1 <= length airplane_stream)%nat ->
  scored (length airplane_stream)
    (calculate_score (schedule_landings airplane_stream) airplane_stream).
Proof.
  intros Hn. pose proof (schedule_landings_ids_sorted airplane_stream) as Hids.
  assert (Hlen : length (rows (schedule_landings airplane_stream)) = length airplane_stream).
  { rewrite <- (length_map airplane_ID), Hids, length_map.
    apply Permutation_length, sorted_airplanes_perm. }
  split; simpl; [by rewrite length_map|].
  destruct (rows (schedule_landings airplane_stream)) as [|r l] eqn:E;
    [simpl in Hlen; lia|].
  simpl. rewrite lookup_airplane_found; [apply orb_true_r|].
  rewrite <- (sorted_airplanes_perm airplane_stream), <- Hids.
  simpl. apply list_elem_of_here.
Qed.

Section ReturnFacts.
Context {G : Type} `{RandomSource G}.

Lemma sample2_returns n (g : G) :
  (2 <= n)%nat -> exists i j g', sample2 n g = Ok (i, j, g').
Proof.
  intros Hn. unfold sample2.
  destruct (n <? 2)%nat eqn:E; [apply Nat.ltb_lt in E; lia|].
  destruct (randbelow n g) as [x g1]. destruct (randbelow (n - 1) g1) as [y g2].
  eauto.
Qed.

(** The two positions are in range and distinct, as [random.sample]
    guarantees. *)
Lemma sample2_spec n (g : G) i j g' :
  sample2 n g = Ok (i, j, g') -> (i < n)%nat /\ (j < n)%nat /\ i <> j.
Proof.
  unfold sample2. destruct (n <? 2)%nat eqn:E; [discriminate|].
  apply Nat.ltb_ge in E.
  destruct (randbelow n g) as [x g1]. destruct (randbelow (n - 1) g1) as [y g2].
  intros [= <- <- _].
  pose proof (Nat.mod_upper_bound x n ltac:(lia)) as Hx.
  pose proof (Nat.mod_upper_bound y (n - 1) ltac:(lia)) as Hy.
  destruct (y mod (n - 1) =? x mod n)%nat eqn:Eq.
  - apply Nat.eqb_eq in Eq. lia.
  - apply Nat.eqb_neq in Eq. lia.
Qed.

Lemma choice_returns {A : Type} (l : list A) (g : G) :
  l <> [] -> exists x g', choice l g = Ok (x, g') /\ x ∈ l.
Proof.
  intros Hl. unfold choice. destruct (randbelow (length l) g) as [k g'].
  assert (Hk : (k mod length l < length l)%nat).
  { apply Nat.mod_upper_bound. by destruct l. }
  destruct (lookup_lt_is_Some_2 l _ Hk) as [x Hx]. rewrite Hx.
  exists x, g'. split; [done|]. by eapply list_elem_of_lookup_2.
Qed.

End ReturnFacts.

(** ** The cooling schedule of simulated annealing *)

Lemma running_before_66 n : (n < 66)%nat -> Cooling.running (Cooling.temperature n) = true.
Proof.
  intros Hn.
  assert (Hall : forallb (fun k => Cooling.running (Cooling.temperature k)) (seq 0 66) = true)
    by (vm_compute; reflexivity).
  rewrite forallb_forall in Hall. apply Hall. apply in_seq. lia.
Qed.

Lemma stopped_at_66 : Cooling.running (Cooling.temperature 66) = false.
Proof. vm_compute. reflexivity. Qed.

Section AnnealingFacts.
Context {G : Type} `{RandomSource G}.
Variable exp_gt_random : float -> Q -> G -> bool * G.

Lemma annealing_body_iterations airplane_stream T st st' :
  annealing_body exp_gt_random airplane_stream T st = Ok st' ->
  iterations st' = S (iterations st).
Proof.
  unfold annealing_body.
  destruct (get_schedule_neighbor _ _) as [[new_schedule g]|e]; simpl; [|discriminate].
  destruct (Score_sum _) as [new_score|e]; simpl; [|discriminate].
  destruct (if Qltb _ _ then _ else _) as [[] g'];
    intros [= <-]; reflexivity.
Qed.

(** On a scored schedule of two rows or more a pass cannot raise. *)
Lemma annealing_body_returns airplane_stream T st n :
  (2 <= n)%nat -> scored n (current_schedule st) ->
  exists st', annealing_body exp_gt_random airplane_stream T st = Ok st'
              /\ scored n (current_schedule st').
Proof.
  intros Hn Hst. unfold annealing_body, get_schedule_neighbor.
  destruct (sample2_returns (length (rows (current_schedule st))) (generator st))
    as (i & j & g & ->); [destruct Hst as [-> _]; done|].
  simpl.
  pose proof (calculate_score_scored n _ airplane_stream
                (iloc_swap_scored n i j _ Hst)) as Hnew.
  rewrite (Score_sum_scored n _ Hnew). simpl.
  destruct (if Qltb _ _ then _ else _) as [[] g']; simpl; eauto.
Qed.

(** From temperature number [n], [k] passes remain when [n + k = 66]. *)
Lemma annealing_loop_count airplane_stream k : forall n fuel st,
  (n + k = 66)%nat -> (k < fuel)%nat ->
  exists r,
    annealing_loop exp_gt_random fuel airplane_stream (Cooling.temperature n) st = Some r
    /\ (forall st', r = Ok st' -> iterations st' = (iterations st + k)%nat)
    /\ (forall m, (2 <= m)%nat -> scored m (current_schedule st) -> exists st', r = Ok st').
Proof.
  induction k as [|k IH]; intros n fuel st Hn Hfuel.
  - destruct fuel as [|fuel]; [lia|]. simpl.
    replace n with 66%nat by lia. rewrite stopped_at_66.
    eexists; split; [reflexivity|]. split; [|by eauto].
    intros st' [= <-]. lia.
  - destruct fuel as [|fuel]; [lia|]. simpl.
    rewrite running_before_66 by lia.
    destruct (annealing_body exp_gt_random airplane_stream (Cooling.temperature n) st)
      as [st1|e] eqn:Hbody.
    + destruct (IH (S n) fuel st1) as (r & Hr & Hcount & Hret); [lia|lia|].
      exists r. split; [exact Hr|]. split.
      * intros st' Hst'. apply annealing_body_iterations in Hbody.
        rewrite (Hcount st' Hst'), Hbody. lia.
      * intros m Hm Hst.
        destruct (annealing_body_returns airplane_stream (Cooling.temperature n) st m Hm Hst)
          as (st1' & Hbody' & Hst1).
        rewrite Hbody in Hbody'. injection Hbody' as <-. by apply (Hret m).
    + eexists; split; [reflexivity|]. split; [discriminate|].
      intros m Hm Hst.
      destruct (annealing_body_returns airplane_stream (Cooling.temperature n) st m Hm Hst)
        as (st1' & Hbody' & _).
      rewrite Hbody in Hbody'. discriminate.
Qed.

(** C6 (as the code has it). With [T = 1.0], [T_min = 0.001] and
    [alpha = 0.9] the main loop of simulated annealing stops within 67
    unrollings; whenever no pass raises it has executed exactly 66 passes,
    whatever the airplanes, the random draws and the acceptance decisions;
    and on a stream of two airplanes or more no pass raises. *)
Theorem simulated_annealing_iterations (fuel : nat) (airplane_stream : list Airplane) (g : G) :
  (66 < fuel)%nat ->
  exists r, simulated_annealing_run exp_gt_random fuel airplane_stream g = Some r
    /\ (forall st, r = Ok st -> iterations st = 66%nat)
    /\ ((2 <= length airplane_stream)%nat -> exists st, r = Ok st).
Proof.
  intros Hfuel. unfold simulated_annealing_run.
  destruct (Score_sum _) as [current_score|e] eqn:Hsum.
  - destruct (annealing_loop_count airplane_stream 66 0 fuel
                {| current_schedule :=
                     calculate_score (schedule_landings airplane_stream) airplane_stream;
                   current_score := current_score;
                   best_schedule :=
                     calculate_score (schedule_landings airplane_stream) airplane_stream;
                   best_score := current_score;
                   generator := g;
                   iterations := 0 |}) as (r & Hr & Hcount & Hret); [lia|lia|].
    exists r. split; [exact Hr|]. split.
    + intros st Hst. apply (Hcount st Hst).
    + intros Hn. apply (Hret (length airplane_stream) Hn). simpl.
      apply schedule_landings_scored. lia.
  - eexists; split; [reflexivity|]. split; [discriminate|].
    intros Hn.
    rewrite (Score_sum_scored (length airplane_stream)) in Hsum; [discriminate|].
    apply schedule_landings_scored. lia.
Qed.

End AnnealingFacts.

(** C6 (as the code has it), on a concrete run. *)
Lemma simulated_annealing_iterations_witness :
  (66 < 70)%nat
  /\ exists r, simulated_annealing_run always_accept 70 three_airplanes 5%nat = Some r
       /\ (forall st, r = Ok st -> iterations st = 66%nat)
       /\ ((2 <= length three_airplanes)%nat -> exists st, r = Ok st).
Proof.
  split; [lia|].
  apply (simulated_annealing_iterations always_accept 70 three_airplanes 5%nat).
  lia.
Defined.

(** C6 (as stated) fails: on three airplanes the loop runs 66 passes, half
    as many again as 44; no reading of "about 44" that allows a quarter
    either way (33 to 55) covers it. *)
Lemma simulated_annealing_not_about_44 :
  ~ (forall st,
       simulated_annealing_run always_accept 100 three_airplanes 5%nat = Some (Ok st) ->
       (33 <= iterations st <= 55)%nat).
Proof.
  intros Hall.
  assert (Hrun : exists st,
            simulated_annealing_run always_accept 100 three_airplanes 5%nat = Some (Ok st)
            /\ iterations st = 66%nat).
  { vm_compute. eexists. split; reflexivity. }
  destruct Hrun as (st & Hst & Hcount).
  specialize (Hall st Hst). lia.
Qed.

(** ** Tabu search returns on two airplanes or more *)

Lemma recompute_rows_length airplane_stream l : forall times,
  length (recompute_rows airplane_stream times l) = length l.
Proof.
  induction l as [|r l IH]; intros times; simpl; [done|].
  destruct (recompute_row airplane_stream times r) as [times' r']. simpl.
  by rewrite IH.
Qed.

Lemma recompute_scored n airplane_stream df :
  scored n df -> scored n (recompute airplane_stream df).
Proof.
  intros [Hn Hs]. split; simpl; [by rewrite recompute_rows_length|by rewrite Hs].
Qed.

Section TabuReturns.
Context {G : Type} `{RandomSource G}.
Variable to_string : DataFrame -> string.

Lemma Hill_Tabu_successors_returns airplane_stream df n k : forall (g : G),
  (2 <= n)%nat -> scored n df ->
  exists neighbors g',
    Hill_Tabu_successors_loop df airplane_stream k g = Ok (neighbors, g')
    /\ length neighbors = k
    /\ Forall (scored n) neighbors.
Proof.
  induction k as [|k IH]; intros g Hn Hdf; simpl.
  - exists [], g. by repeat split.
  - destruct (sample2_returns (length (rows df)) g) as (i & j & g1 & ->);
      [destruct Hdf as [-> _]; done|].
    simpl. destruct (IH g1 Hn Hdf) as (neighbors & g2 & -> & Hlen & Hall). simpl.
    eexists _, g2. split; [reflexivity|]. split; [simpl; by rewrite Hlen|].
    constructor; [|done]. by apply recompute_scored, iloc_swap_scored.
Qed.

Lemma tabu_neighbors_returns airplane_stream max_tabu_size n neighbors : forall st,
  Forall (scored n) neighbors -> inner_scored n st ->
  exists st',
    tabu_neighbors to_string airplane_stream max_tabu_size neighbors st = Ok st'
    /\ inner_scored n st'
    /\ length (seen st') = (length (seen st) + length neighbors)%nat.
Proof.
  induction neighbors as [|nb l IH]; intros st Hall (Hseen & Hbest & Hnext); simpl.
  - exists st. split; [done|]. split; [exact (conj Hseen (conj Hbest Hnext))|lia].
  - inversion Hall as [|? ? Hnb Hl]; subst.
    destruct (evaluate_landing_schedule_scored n nb airplane_stream Hnb)
      as (nb' & sc & -> & Hnb').
    simpl.
    edestruct IH as (st' & Hst' & Hinv & Hlen); [exact Hl| |].
    2:{ exists st'. split; [exact Hst'|]. split; [exact Hinv|].
        rewrite Hlen. simpl. rewrite length_app. simpl. lia. }
    split; [|split]; simpl.
    + apply Forall_app. split; [done|]. by constructor.
    + by destruct (Qltb sc (best_solution_score st)).
    + by destruct (_ && _).
Qed.

Lemma tabu_body_returns airplane_stream max_tabu_size n st :
  (2 <= n)%nat -> scored n (landing_schedule_df st) ->
  exists st', tabu_body to_string airplane_stream max_tabu_size st = Ok st'
              /\ scored n (landing_schedule_df st').
Proof.
  intros Hn Hdf. unfold tabu_body, get_Hill_Tabu_successors.
  destruct (Hill_Tabu_successors_returns airplane_stream _ n 15 (tabu_generator st) Hn Hdf)
    as (neighbors & g & -> & Hlen & Hall).
  simpl.
  destruct (evaluate_landing_schedule_scored n _ airplane_stream Hdf)
    as (current_df & best & -> & Hcur).
  simpl.
  edestruct (tabu_neighbors_returns airplane_stream max_tabu_size n neighbors)
    as (inner & -> & (Hseen & Hbest & Hnext) & Hseenlen); [exact Hall| |].
  { split; [|split]; simpl; [constructor|exact Hcur|exact Hcur]. }
  simpl in *. destruct (Qle_bool _ _).
  - destruct (random_float g) as [r g1]. destruct (Qltb r (1 / 10)).
    + destruct (choice_returns (seen inner) g1) as (picked & g2 & -> & Hin).
      { intros E. rewrite E in Hseenlen. simpl in Hseenlen. lia. }
      simpl. rewrite Forall_forall in Hseen.
      destruct (evaluate_landing_schedule_scored n picked airplane_stream (Hseen _ Hin))
        as (picked' & sc & -> & Hpicked).
      simpl. eauto.
    + simpl. eauto.
  - simpl. eauto.
Qed.

Lemma tabu_loop_returns airplane_stream max_iterations max_tabu_size n fuel : forall st,
  (2 <= n)%nat -> scored n (landing_schedule_df st) ->
  exists st', tabu_loop to_string fuel airplane_stream max_iterations max_tabu_size st = Ok st'.
Proof.
  induction fuel as [|fuel IH]; intros st Hn Hdf; simpl; [by eauto|].
  destruct (it st <? max_iterations)%Z; [|by eauto].
  destruct (tabu_body_returns airplane_stream max_tabu_size n st Hn Hdf)
    as (st1 & -> & Hst1).
  simpl. by apply IH.
Qed.

(** On a stream of two airplanes or more tabu search raises nothing. *)
Lemma tabu_search_returns (airplane_stream : list Airplane)
  (max_iterations max_tabu_size : Z) (g : G) :
  (2 <= length airplane_stream)%nat ->
  exists df history,
    tabu_search_schedule_landings to_string airplane_stream max_iterations max_tabu_size g
    = Ok (df, history).
Proof.
  intros Hn. unfold tabu_search_schedule_landings, tabu_search_run.
  assert (Hlen : length (recompute_urgency airplane_stream) = length airplane_stream).
  { unfold recompute_urgency. apply length_map. }
  pose proof (schedule_landings_scored (recompute_urgency airplane_stream)) as Hinit.
  rewrite Hlen in Hinit. specialize (Hinit ltac:(lia)).
  unfold evaluate_landing_schedule.
  rewrite (Score_sum_scored _ _ Hinit). simpl.
  edestruct (tabu_loop_returns (recompute_urgency airplane_stream) max_iterations
               max_tabu_size (length airplane_stream) (Z.to_nat max_iterations))
    as (st & ->); [exact Hn| |].
  - exact Hinit.
  - simpl. eauto.
Qed.

End TabuReturns.

(** * Further properties of the scheduler *)

(** ** [schedule_landings]: each record against its airplane *)

Lemma landing_step_record st a :
  exists r, (landing_step st a).2 = st.2 ++ [r] /\ record_of a r.
Proof.
  destruct st as [[avail idx] acc]. unfold landing_step. cbv zeta. cbn [snd].
  eexists. split; [reflexivity|].
  unfold record_of. cbn [airplane_ID urgent score actual_landing_time].
  repeat split.
  - intros Hu. rewrite Hu. simpl.
    destruct (Qltb (remaining_flying_time a) _) eqn:E; [apply Qle_refl|].
    by apply Qltb_ge in E.
  - intros Hu. rewrite Hu. simpl. apply py_max_l.
Qed.

Lemma landing_fold_records l : forall st before,
  Forall2 record_of before st.2 ->
  Forall2 record_of (before ++ l) (fold_left landing_step l st).2.
Proof.
  induction l as [|a l IH]; intros st before Hbefore; simpl.
  - by rewrite app_nil_r.
  - destruct (landing_step_record st a) as (r & Hr & Hrec).
    replace (before ++ a :: l) with ((before ++ [a]) ++ l) by (by rewrite <- app_assoc).
    apply IH. rewrite Hr. apply Forall2_app; [exact Hbefore|].
    constructor; [exact Hrec|constructor].
Qed.

Lemma schedule_landings_records airplane_stream :
  Forall2 record_of (sorted_airplanes airplane_stream)
    (rows (schedule_landings airplane_stream)).
Proof.
  rewrite schedule_landings_rows.
  apply (landing_fold_records _ ([0; 0; 0], O, []) []). constructor.
Qed.

(** Every record of the schedule belongs to an airplane of the input: it
    carries that airplane's id and urgency flag and no score, lands no
    later than the airplane's remaining flying time when the airplane is
    urgent, and no earlier than its expected landing time when it is not. *)
Theorem schedule_landings_record_bounds (airplane_stream : list Airplane) (r : Row) :
  r ∈ rows (schedule_landings airplane_stream) ->
  exists a, a ∈ airplane_stream /\ record_of a r.
Proof.
  intros Hr. pose proof (schedule_landings_records airplane_stream) as Hall.
  apply list_elem_of_lookup in Hr as [k Hk].
  destruct (Forall2_lookup_r _ _ _ _ _ Hall Hk) as (a & Ha & Hrec).
  exists a. split; [|done].
  rewrite <- (sorted_airplanes_perm airplane_stream).
  by eapply list_elem_of_lookup_2.
Qed.

Lemma schedule_landings_record_bounds_witness :
  exists a, a ∈ urgent_airplanes
    /\ record_of a {| airplane_ID := 2; actual_landing_time := 0 # 10; urgent := true;
                      landing_strip := 1; score := None |}.
Proof.
  apply (schedule_landings_record_bounds urgent_airplanes).
  apply list_elem_of_here.
Defined.

(** ** [schedule_landings]: urgent airplanes first *)

Lemma map_const_replicate {A B : Type} (f : A -> B) (b : B) (l : list A) :
  Forall (fun x => f x = b) l -> map f l = replicate (length l) b.
Proof.
  induction 1 as [|x l Hx _ IH]; simpl; [done|]. by rewrite Hx, IH.
Qed.

(** The [Urgent] column of the schedule is a run of [True] followed by a
    run of [False]: no record of a non-urgent airplane comes before a
    record of an urgent one, whatever the order of the input. *)
Theorem schedule_landings_urgent_first (airplane_stream : list Airplane) :
  exists m n,
    (m + n = length airplane_stream)%nat
    /\ map urgent (rows (schedule_landings airplane_stream))
       = replicate m true ++ replicate n false.
Proof.
  set (us := sorted remaining_flying_time
               (filter (fun ap => is_urgent ap = true) airplane_stream)).
  set (ns := sorted expected_landing_time
               (filter (fun ap => is_urgent ap = false) airplane_stream)).
  assert (Hflags : map urgent (rows (schedule_landings airplane_stream))
                   = map is_urgent (sorted_airplanes airplane_stream)).
  { pose proof (schedule_landings_records airplane_stream) as Hall.
    induction Hall as [|a r l l' (_ & Hu & _) _ IH]; simpl; [done|].
    by rewrite Hu, IH. }
  exists (length us), (length ns). split.
  - rewrite <- (Permutation_length (sorted_airplanes_perm airplane_stream)).
    unfold sorted_airplanes. by rewrite length_app.
  - rewrite Hflags. unfold sorted_airplanes. fold us ns. rewrite map_app.
    f_equal; apply map_const_replicate.
    + unfold us. rewrite sorted_perm. apply Forall_forall. intros a Ha.
      by apply list_elem_of_filter in Ha as [Ha _].
    + unfold ns. rewrite sorted_perm. apply Forall_forall. intros a Ha.
      by apply list_elem_of_filter in Ha as [Ha _].
Qed.

(** ** [schedule_landings]: runways in turn, and the distance kept on a runway *)

Lemma mod3_shift k : ((k + 3) mod 3 = k mod 3)%nat.
Proof. exact (Nat.Div0.mod_add k 1 3). Qed.

Lemma mod3_apart k idx : (k < idx)%nat -> (idx <= k + 2)%nat -> (k mod 3 <> idx mod 3)%nat.
Proof.
  intros Hlt Hle Heq.
  pose proof (Nat.div_mod_eq k 3). pose proof (Nat.div_mod_eq idx 3). lia.
Qed.

Lemma lookup_snoc_cases {A : Type} (l : list A) (x y : A) k :
  (l ++ [x]) !! k = Some y ->
  ((k < length l)%nat /\ l !! k = Some y) \/ (k = length l /\ y = x).
Proof.
  intros Hk. apply lookup_snoc_Some in Hk as [[? ?]|[? ?]]; [by left|by right].
Qed.

Lemma landing_step_inv st a : landing_inv st -> landing_inv (landing_step st a).
Proof.
  destruct st as [[avail idx] acc].
  intros (Hidx & Hlen & Hstrip & Havail & Hsep).
  unfold landing_step. cbv zeta.
  set (next := nth (idx mod 3) avail 0 + 3 / 60).
  set (t := if is_urgent a && Qltb (remaining_flying_time a)
                                 (py_max (expected_landing_time a) next)
            then remaining_flying_time a
            else py_max (expected_landing_time a) next).
  set (r := {| airplane_ID := id a; actual_landing_time := t; urgent := is_urgent a;
               landing_strip := S (idx mod 3); score := None |}).
  assert (Hc : (idx mod 3 < 3)%nat) by (by apply Nat.mod_upper_bound).
  unfold landing_inv. split; [|split; [|split; [|split]]].
  - rewrite length_app. simpl. lia.
  - by rewrite length_insert.
  - intros k rk Hk. apply lookup_snoc_cases in Hk as [[_ Hk]|[-> ->]].
    + by apply Hstrip.
    + simpl. by rewrite <- Hidx.
  - intros k rk Hk Hlast. apply lookup_snoc_cases in Hk as [[Hlt Hk]|[-> ->]].
    + rewrite list_lookup_insert_ne by (apply not_eq_sym, mod3_apart; lia).
      apply (Havail k rk Hk). lia.
    + rewrite <- Hidx. rewrite list_lookup_insert_eq by lia. done.
  - intros k rk rk' Hk Hk' Hu.
    apply lookup_snoc_cases in Hk' as [[Hlt' Hk']|[Hlast ->]].
    + apply lookup_snoc_cases in Hk as [[_ Hk]|[-> _]]; [|lia].
      by apply (Hsep k rk rk').
    + apply lookup_snoc_cases in Hk as [[_ Hk]|[-> _]]; [|lia].
      simpl in Hu. simpl. unfold t. rewrite Hu. simpl.
      assert (Hslot : nth (idx mod 3) avail 0 = actual_landing_time rk + 3).
      { apply nth_lookup_Some. rewrite Hidx, <- Hlast, mod3_shift.
        apply (Havail k rk Hk). lia. }
      unfold next. rewrite Hslot. apply py_max_r.
Qed.

Lemma landing_fold_inv l : forall st,
  landing_inv st -> landing_inv (fold_left landing_step l st).
Proof.
  induction l as [|a l IH]; intros st Hst; simpl; [done|].
  by apply IH, landing_step_inv.
Qed.

Lemma schedule_landings_inv airplane_stream :
  landing_inv (fold_left landing_step (sorted_airplanes airplane_stream)
                 ([0; 0; 0], O, [])).
Proof.
  apply landing_fold_inv. unfold landing_inv.
  repeat split; try done; intros k r; by rewrite lookup_nil.
Qed.

(** Runways are handed out in turn: the record at position [k] of the
    schedule is on runway [k mod 3 + 1]. *)
Theorem schedule_landings_round_robin (airplane_stream : list Airplane) (k : nat) (r : Row) :
  rows (schedule_landings airplane_stream) !! k = Some r ->
  landing_strip r = S (k mod 3).
Proof.
  rewrite schedule_landings_rows.
  pose proof (schedule_landings_inv airplane_stream) as Hinv.
  destruct (fold_left _ _ _) as [[avail idx] acc].
  destruct Hinv as (_ & _ & Hstrip & _). apply Hstrip.
Qed.

Lemma schedule_landings_round_robin_witness :
  landing_strip {| airplane_ID := 2; actual_landing_time := 2; urgent := false;
                   landing_strip := 2; score := None |} = S (1 mod 3).
Proof.
  apply (schedule_landings_round_robin three_airplanes 1). reflexivity.
Defined.

(** Two records three places apart share a runway.  When the later one is
    not urgent, it lands at least three hours and three minutes (the
    occupancy plus the gap) after the earlier one. *)
Theorem schedule_landings_separation (airplane_stream : list Airplane)
  (k : nat) (r r' : Row) :
  rows (schedule_landings airplane_stream) !! k = Some r ->
  rows (schedule_landings airplane_stream) !! (k + 3)%nat = Some r' ->
  urgent r' = false ->
  landing_strip r' = landing_strip r
  /\ actual_landing_time r + 3 + 3 / 60 <= actual_landing_time r'.
Proof.
  rewrite schedule_landings_rows.
  pose proof (schedule_landings_inv airplane_stream) as Hinv.
  destruct (fold_left _ _ _) as [[avail idx] acc].
  destruct Hinv as (_ & _ & Hstrip & _ & Hsep). cbn [snd].
  intros Hk Hk' Hu. split.
  - rewrite (Hstrip _ _ Hk), (Hstrip _ _ Hk'). by rewrite mod3_shift.
  - by apply (Hsep k r r').
Qed.

Lemma schedule_landings_separation_witness :
  landing_strip {| airplane_ID := 3; actual_landing_time := 243 # 60; urgent := false;
                   landing_strip := 1; score := None |}
  = landing_strip {| airplane_ID := 1; actual_landing_time := 1; urgent := false;
                     landing_strip := 1; score := None |}
  /\ 1 + 3 + 3 / 60 <= 243 # 60.
Proof.
  apply (schedule_landings_separation four_airplanes 0); reflexivity.
Defined.

(** ** [evaluate_landing_schedule]: bounds, repetition, and the schedule's own stream *)

Lemma record_score_le a t : record_score a t <= 1000.
Proof.
  unfold record_score.
  pose proof (Qabs_nonneg (expected_landing_time a - t)) as Habs.
  revert Habs. generalize (Qabs (expected_landing_time a - t)). intros d Hd.
  destruct (is_urgent a); lra.
Qed.

Lemma lookup_airplane_set_score airplane_stream x r :
  lookup_airplane airplane_stream (set_score x r) = lookup_airplane airplane_stream r.
Proof. reflexivity. Qed.

Lemma score_row_idem airplane_stream r :
  score_row airplane_stream (score_row airplane_stream r) = score_row airplane_stream r.
Proof.
  unfold score_row. destruct (lookup_airplane airplane_stream r) as [a|] eqn:E.
  - rewrite lookup_airplane_set_score, E. reflexivity.
  - by rewrite E.
Qed.

Lemma row_found_score_row airplane_stream r :
  row_found airplane_stream (score_row airplane_stream r) = row_found airplane_stream r.
Proof.
  unfold score_row, row_found.
  destruct (lookup_airplane airplane_stream r) as [a|] eqn:E.
  - by rewrite lookup_airplane_set_score, E.
  - by rewrite E.
Qed.

Lemma calculate_score_idem df airplane_stream :
  calculate_score (calculate_score df airplane_stream) airplane_stream
  = calculate_score df airplane_stream.
Proof.
  unfold calculate_score. cbn [rows has_score_column]. f_equal.
  - rewrite map_map. apply map_ext. intros r. apply score_row_idem.
  - assert (Hex : existsb (row_found airplane_stream)
                    (map (score_row airplane_stream) (rows df))
                  = existsb (row_found airplane_stream) (rows df)).
    { induction (rows df) as [|r l IH]; simpl; [done|].
      by rewrite row_found_score_row, IH. }
    rewrite Hex, <- orb_assoc, orb_diag. reflexivity.
Qed.

(** Evaluating the frame the evaluator has just left changes nothing: the
    same frame and the same total come back. *)
Theorem evaluate_landing_schedule_idempotent (df df' : DataFrame)
  (airplane_stream : list Airplane) (total : Q) :
  evaluate_landing_schedule df airplane_stream = Ok (df', total) ->
  evaluate_landing_schedule df' airplane_stream = Ok (df', total).
Proof.
  unfold evaluate_landing_schedule.
  destruct (Score_sum (calculate_score df airplane_stream)) as [t|e] eqn:Hsum;
    simpl; [|discriminate].
  intros [= <- <-]. rewrite calculate_score_idem, Hsum. reflexivity.
Qed.

Lemma evaluate_landing_schedule_idempotent_witness :
  exists df' total,
    evaluate_landing_schedule (schedule_landings three_airplanes) three_airplanes
      = Ok (df', total)
    /\ evaluate_landing_schedule df' three_airplanes = Ok (df', total).
Proof.
  eexists _, _. split; [reflexivity|].
  apply (evaluate_landing_schedule_idempotent (schedule_landings three_airplanes)).
  reflexivity.
Defined.

Lemma sum_scores_bound airplane_stream l :
  Forall (fun r => row_found airplane_stream r = true) l ->
  sum_scores (map (score_row airplane_stream) l) <= 1000 * inject_Z (Z.of_nat (length l)).
Proof.
  induction 1 as [|r l Hr _ IH].
  - simpl. apply Qle_refl.
  - cbn [map sum_scores length].
    unfold row_found in Hr. unfold score_row at 1.
    destruct (lookup_airplane airplane_stream r) as [a|]; [|discriminate].
    cbn [score set_score].
    pose proof (record_score_le a (actual_landing_time r)) as Hle.
    rewrite Nat2Z.inj_succ, <- Z.add_1_r, inject_Z_plus.
    revert IH Hle.
    generalize (sum_scores (map (score_row airplane_stream) l)),
               (record_score a (actual_landing_time r)),
               (inject_Z (Z.of_nat (length l))).
    intros x y z Hx Hy. change (inject_Z 1) with 1. lra.
Qed.

(** No record scores more than 1000: when every record of the frame finds
    its airplane, each gets a score of at most 1000 and the total is at
    most 1000 times the number of records. *)
Theorem evaluate_landing_schedule_bound (df df' : DataFrame)
  (airplane_stream : list Airplane) (total : Q) :
  Forall (fun r => lookup_airplane airplane_stream r <> None) (rows df) ->
  evaluate_landing_schedule df airplane_stream = Ok (df', total) ->
  Forall (fun r' => exists sc, score r' = Some sc /\ sc <= 1000) (rows df')
  /\ total <= 1000 * inject_Z (Z.of_nat (length (rows df))).
Proof.
  intros Hfound. unfold evaluate_landing_schedule.
  destruct (Score_sum (calculate_score df airplane_stream)) as [t|e] eqn:Hsum;
    simpl; [|discriminate].
  intros [= <- <-]. split.
  - cbn [calculate_score rows]. apply Forall_fmap.
    eapply Forall_impl; [exact Hfound|]. intros r Hr. simpl in *.
    unfold score_row.
    destruct (lookup_airplane airplane_stream r) as [a|]; [|by destruct Hr].
    eexists. split; [reflexivity|]. apply record_score_le.
  - unfold Score_sum in Hsum. destruct (has_score_column _); [|discriminate].
    injection Hsum as <-. cbn [calculate_score rows]. apply sum_scores_bound.
    eapply Forall_impl; [exact Hfound|]. intros r Hr. simpl in *.
    unfold row_found. by destruct (lookup_airplane airplane_stream r).
Qed.

Lemma evaluate_landing_schedule_bound_witness :
  match evaluate_landing_schedule (schedule_landings three_airplanes) three_airplanes with
  | Ok (df', total) =>
      Forall (fun r' => exists sc, score r' = Some sc /\ sc <= 1000) (rows df')
      /\ total <= 1000 * inject_Z (Z.of_nat 3)
  | Raise _ => False
  end.
Proof.
  assert (Hfound : Forall (fun r => lookup_airplane three_airplanes r <> None)
                     (rows (schedule_landings three_airplanes))).
  { repeat (constructor; [discriminate|]). constructor. }
  destruct (evaluate_landing_schedule (schedule_landings three_airplanes) three_airplanes)
    as [[df' total]|e] eqn:E.
  - exact (evaluate_landing_schedule_bound _ df' three_airplanes total Hfound E).
  - vm_compute in E. discriminate E.
Defined.

(** A schedule evaluated against the stream it was built from, when the
    stream is not empty and its ids are distinct: the evaluator returns,
    keeps one record per airplane, and scores every record against the
    airplane whose id it carries. *)
Theorem evaluate_schedule_landings (airplane_stream : list Airplane) :
  NoDup (map id airplane_stream) ->
  airplane_stream <> [] ->
  exists df' total,
    evaluate_landing_schedule (schedule_landings airplane_stream) airplane_stream
      = Ok (df', total)
    /\ length (rows df') = length airplane_stream
    /\ forall r', r' ∈ rows df' ->
         exists a, a ∈ airplane_stream
           /\ airplane_ID r' = id a
           /\ score r' = Some (record_score a (actual_landing_time r')).
Proof.
  intros Hnd Hne.
  assert (Hn : (1 <= length airplane_stream)%nat).
  { destruct airplane_stream; [done|simpl; lia]. }
  pose proof (schedule_landings_scored airplane_stream Hn) as Hsc.
  unfold evaluate_landing_schedule.
  rewrite (Score_sum_scored _ _ Hsc). simpl.
  eexists _, _. split; [reflexivity|]. cbn [calculate_score rows]. split.
  - rewrite length_map.
    rewrite <- (length_map airplane_ID), schedule_landings_ids_sorted, length_map.
    apply Permutation_length, sorted_airplanes_perm.
  - intros r' Hr'. apply list_elem_of_fmap in Hr' as (r & -> & Hr).
    apply list_elem_of_lookup in Hr as [k Hk].
    destruct (Forall2_lookup_r _ _ _ _ _ (schedule_landings_records airplane_stream) Hk)
      as (a & Ha & Hid & _).
    assert (Hin : a ∈ airplane_stream).
    { rewrite <- (sorted_airplanes_perm airplane_stream).
      by eapply list_elem_of_lookup_2. }
    exists a. split; [exact Hin|].
    unfold score_row. rewrite (lookup_airplane_unique airplane_stream a r Hnd Hin Hid).
    split; [exact Hid|reflexivity].
Qed.

Lemma evaluate_schedule_landings_witness :
  exists df' total,
    evaluate_landing_schedule (schedule_landings three_airplanes) three_airplanes
      = Ok (df', total)
    /\ length (rows df') = length three_airplanes
    /\ forall r', r' ∈ rows df' ->
         exists a, a ∈ three_airplanes
           /\ airplane_ID r' = id a
           /\ score r' = Some (record_score a (actual_landing_time r')).
Proof.
  apply (evaluate_schedule_landings three_airplanes).
  - apply (bool_decide_unpack (NoDup [1%Z; 2%Z; 3%Z])). vm_compute. exact I.
  - discriminate.
Defined.

(** ** [get_successors]: records are only moved *)

Lemma insert_swap_out {A : Type} (l : list A) j (x y : A) :
  l !! j = Some y -> y :: <[j := x]> l ≡ₚ x :: l.
Proof.
  revert j. induction l as [|z l IH]; intros [|j] Hj; simpl in *; try done.
  - injection Hj as ->. apply Permutation_swap.
  - rewrite (Permutation_swap z y), (IH j Hj). apply Permutation_swap.
Qed.

Lemma insert_insert_swap {A : Type} (l : list A) i j (a b : A) :
  l !! i = Some a -> l !! j = Some b -> <[j := a]> (<[i := b]> l) ≡ₚ l.
Proof.
  revert i j. induction l as [|z l IH]; intros [|i] [|j] Hi Hj; simpl in *; try done.
  - by injection Hi as ->.
  - injection Hi as ->. rewrite (insert_swap_out l j a b Hj). done.
  - injection Hj as ->. rewrite (insert_swap_out l i b a Hi). done.
  - by rewrite (IH i j Hi Hj).
Qed.

Lemma swap_rows_perm i j l : swap_rows i j l ≡ₚ l.
Proof.
  unfold swap_rows.
  destruct (l !! i) as [ri|] eqn:Hi; [|done].
  destruct (l !! j) as [rj|] eqn:Hj; [|done].
  by apply insert_insert_swap.
Qed.

(** Every successor holds exactly the records of the input, each as many
    times as the input does, in the same columns: [get_successors] moves
    records and neither drops, duplicates nor alters one. *)
Theorem get_successors_permutation (df s : DataFrame) (airplane_stream : list Airplane) :
  s ∈ get_successors df airplane_stream ->
  rows s ≡ₚ rows df /\ has_score_column s = has_score_column df.
Proof.
  unfold get_successors. destruct (length (rows df) <=? 1)%nat.
  - intros ->%list_elem_of_singleton. done.
  - rewrite list_elem_of_In, in_flat_map. intros (i & _ & Hs).
    apply in_map_iff in Hs as (j & <- & _). split; [apply swap_rows_perm|done].
Qed.

Lemma get_successors_permutation_witness :
  rows (iloc_swap 0 2 (schedule_landings three_airplanes))
    ≡ₚ rows (schedule_landings three_airplanes)
  /\ has_score_column (iloc_swap 0 2 (schedule_landings three_airplanes))
     = has_score_column (schedule_landings three_airplanes).
Proof.
  apply (get_successors_permutation _ _ three_airplanes).
  apply list_elem_of_further, list_elem_of_here.
Defined.

(** ** [get_Hill_Tabu_successors] *)

Lemma recompute_rows_spec airplane_stream l : forall times,
  Forall2 (recomputed_row airplane_stream) l (recompute_rows airplane_stream times l).
Proof.
  induction l as [|r l IH]; intros times; simpl; [constructor|].
  unfold recompute_row.
  destruct (lookup_airplane airplane_stream r) as [a|] eqn:E.
  - constructor; [|apply IH].
    unfold recomputed_row. rewrite E. simpl.
    repeat split; try reflexivity. apply py_max_r.
  - constructor; [|apply IH]. unfold recomputed_row. by rewrite E.
Qed.

Section SuccessorFacts.
Context {G : Type} `{RandomSource G}.

Lemma sample2_too_few n (g : G) : (n < 2)%nat -> sample2 n g = Raise ValueError.
Proof. intros Hn. unfold sample2. apply Nat.ltb_lt in Hn. by rewrite Hn. Qed.

Lemma Hill_Tabu_successors_loop_spec airplane_stream df k : forall (g g' : G) neighbors,
  Hill_Tabu_successors_loop df airplane_stream k g = Ok (neighbors, g') ->
  length neighbors = k
  /\ Forall (fun nb =>
       exists i j, (i < length (rows df))%nat /\ (j < length (rows df))%nat /\ i <> j
         /\ Forall2 (recomputed_row airplane_stream)
              (rows (iloc_swap i j df)) (rows nb)) neighbors.
Proof.
  induction k as [|k IH]; intros g g' neighbors; simpl.
  - intros [= <- _]. split; [done|constructor].
  - destruct (sample2 (length (rows df)) g) as [[[i j] g1]|e] eqn:Hs; simpl; [|discriminate].
    destruct (Hill_Tabu_successors_loop df airplane_stream k g1) as [[rest g2]|e] eqn:Hrest;
      simpl; [|discriminate].
    intros [= <- _]. destruct (IH _ _ _ Hrest) as [Hlen Hall].
    split; [simpl; by rewrite Hlen|].
    constructor; [|exact Hall].
    apply sample2_spec in Hs as (Hi & Hj & Hij).
    exists i, j. repeat split; try done. apply recompute_rows_spec.
Qed.

(** On a schedule of fewer than two records the generator raises
    [ValueError]; on two records or more it returns 15 successors of as
    many records as the input. *)
Theorem get_Hill_Tabu_successors_count (df : DataFrame) (airplane_stream : list Airplane)
  (g : G) :
  ((length (rows df) < 2)%nat ->
     get_Hill_Tabu_successors df airplane_stream g = Raise ValueError)
  /\ ((2 <= length (rows df))%nat ->
      exists neighbors g',
        get_Hill_Tabu_successors df airplane_stream g = Ok (neighbors, g')
        /\ length neighbors = 15%nat
        /\ Forall (fun nb => length (rows nb) = length (rows df)) neighbors).
Proof.
  unfold get_Hill_Tabu_successors. split.
  - intros Hn. simpl. by rewrite sample2_too_few.
  - intros Hn.
    assert (Hret : forall k (g0 : G), exists neighbors g',
              Hill_Tabu_successors_loop df airplane_stream k g0 = Ok (neighbors, g')).
    { induction k as [|k IH]; intros g0; simpl; [by eauto|].
      destruct (sample2_returns (length (rows df)) g0 Hn) as (i & j & g1 & ->). simpl.
      destruct (IH g1) as (rest & g2 & ->). simpl. eauto. }
    destruct (Hret 15%nat g) as (neighbors & g' & Hrun).
    exists neighbors, g'. split; [exact Hrun|].
    destruct (Hill_Tabu_successors_loop_spec _ _ _ _ _ _ Hrun) as [Hlen Hall].
    split; [exact Hlen|].
    eapply Forall_impl; [exact Hall|]. intros nb (i & j & _ & _ & _ & Hrows). simpl in *.
    rewrite <- (Forall2_length _ _ _ Hrows). apply swap_rows_length.
Qed.

(** Every successor is the input with two distinct records exchanged and
    then every landing recomputed: the airplane ids are those of the
    input, each as often; a record whose airplane is found lands no
    earlier than the airplane's expected time and is scored by the
    formula on its new landing time; a record whose airplane is missing is
    left as it was. *)
Theorem get_Hill_Tabu_successors_shape (df : DataFrame) (airplane_stream : list Airplane)
  (g g' : G) (neighbors : list DataFrame) (nb : DataFrame) :
  get_Hill_Tabu_successors df airplane_stream g = Ok (neighbors, g') ->
  nb ∈ neighbors ->
  map airplane_ID (rows nb) ≡ₚ map airplane_ID (rows df)
  /\ exists i j, (i < length (rows df))%nat /\ (j < length (rows df))%nat /\ i <> j
       /\ Forall2 (recomputed_row airplane_stream) (rows (iloc_swap i j df)) (rows nb).
Proof.
  intros Hrun Hnb.
  destruct (Hill_Tabu_successors_loop_spec _ _ _ _ _ _ Hrun) as [_ Hall].
  rewrite Forall_forall in Hall.
  destruct (Hall nb Hnb) as (i & j & Hi & Hj & Hij & Hrows).
  split; [|by exists i, j].
  assert (Hids : map airplane_ID (rows nb) = map airplane_ID (rows (iloc_swap i j df))).
  { clear -Hrows. induction Hrows as [|r r' l l' (Hid & _) _ IH]; simpl; [done|].
    by rewrite Hid, IH. }
  rewrite Hids. simpl. apply Permutation_map, swap_rows_perm.
Qed.

End SuccessorFacts.

Lemma get_Hill_Tabu_successors_count_witness :
  get_Hill_Tabu_successors (schedule_landings [ample_airplane 1 1]) [ample_airplane 1 1] 5%nat
    = Raise ValueError
  /\ exists neighbors g',
       get_Hill_Tabu_successors (schedule_landings three_airplanes) three_airplanes 5%nat
         = Ok (neighbors, g')
       /\ length neighbors = 15%nat
       /\ Forall (fun nb => length (rows nb) = length (rows (schedule_landings three_airplanes)))
            neighbors.
Proof.
  split.
  - apply (proj1 (get_Hill_Tabu_successors_count (schedule_landings [ample_airplane 1 1])
                    [ample_airplane 1 1] 5%nat)).
    apply le_n.
  - apply (proj2 (get_Hill_Tabu_successors_count (schedule_landings three_airplanes)
                    three_airplanes 5%nat)).
    apply le_S, le_n.
Defined.

Lemma get_Hill_Tabu_successors_shape_witness :
  match get_Hill_Tabu_successors (schedule_landings three_airplanes) three_airplanes 5%nat with
  | Ok (nb :: _, _) =>
      map airplane_ID (rows nb) ≡ₚ map airplane_ID (rows (schedule_landings three_airplanes))
  | _ => False
  end.
Proof.
  destruct (get_Hill_Tabu_successors (schedule_landings three_airplanes) three_airplanes 5%nat)
    as [[[|nb neighbors] g']|e] eqn:E.
  - vm_compute in E. discriminate E.
  - apply (get_Hill_Tabu_successors_shape _ _ _ _ _ nb E). apply list_elem_of_here.
  - vm_compute in E. discriminate E.
Defined.

(** ** The searches on a stream of fewer than two airplanes *)

Lemma recompute_urgency_length airplane_stream :
  length (recompute_urgency airplane_stream) = length airplane_stream.
Proof. unfold recompute_urgency. apply length_map. Qed.

Section TooFew.
Context {G : Type} `{RandomSource G}.
Variable exp_gt_random : float -> Q -> G -> bool * G.
Variable to_string : DataFrame -> string.

(** Hill climbing cannot start on fewer than two airplanes: the empty
    stream fails with [KeyError] when the initial schedule is scored, and
    a single airplane fails with [ValueError] when the first neighbours
    are drawn. *)
Theorem hill_climbing_too_few (fuel : nat) (airplane_stream : list Airplane) (g : G) :
  (1 <= fuel)%nat ->
  (length airplane_stream < 2)%nat ->
  hill_climbing_schedule_landings fuel airplane_stream g
  = Some (Raise (match airplane_stream with [] => KeyError | _ => ValueError end)).
Proof.
  intros Hfuel Hn. destruct airplane_stream as [|a [|b l]]; [reflexivity| |simpl in Hn; lia].
  unfold hill_climbing_schedule_landings.
  pose proof (schedule_landings_scored (recompute_urgency [a]) (le_n 1)) as Hsc.
  unfold evaluate_landing_schedule. rewrite (Score_sum_scored _ _ Hsc). simpl.
  destruct fuel as [|fuel]; [lia|]. simpl.
  unfold get_Hill_Tabu_successors. simpl.
  rewrite sample2_too_few; [reflexivity|].
  destruct Hsc as [Hlen _]. simpl in Hlen. rewrite Hlen. simpl. lia.
Qed.

(** Simulated annealing likewise: [KeyError] on the empty stream when the
    initial scores are summed, [ValueError] on a single airplane when the
    first neighbour is drawn. *)
Theorem simulated_annealing_too_few (fuel : nat) (airplane_stream : list Airplane) (g : G) :
  (1 <= fuel)%nat ->
  (length airplane_stream < 2)%nat ->
  simulated_annealing_schedule_landings exp_gt_random fuel airplane_stream g
  = Some (Raise (match airplane_stream with [] => KeyError | _ => ValueError end)).
Proof.
  intros Hfuel Hn. destruct airplane_stream as [|a [|b l]]; [reflexivity| |simpl in Hn; lia].
  unfold simulated_annealing_schedule_landings, simulated_annealing_run.
  pose proof (schedule_landings_scored [a] (le_n 1)) as Hsc.
  rewrite (Score_sum_scored _ _ Hsc).
  destruct fuel as [|fuel]; [lia|]. cbn [annealing_loop].
  assert (Hrun : Cooling.running Cooling.T0 = true) by (vm_compute; reflexivity).
  rewrite Hrun. unfold annealing_body, get_schedule_neighbor. cbn [current_schedule generator].
  rewrite sample2_too_few; [reflexivity|].
  destruct Hsc as [Hlen _]. rewrite Hlen. simpl. lia.
Qed.

(** Tabu search: [KeyError] on the empty stream whatever the bounds; on a
    single airplane [ValueError] as soon as one pass is allowed, and
    otherwise the scored initial schedule with an empty history. *)
Theorem tabu_search_too_few (airplane_stream : list Airplane)
  (max_iterations max_tabu_size : Z) (g : G) :
  (length airplane_stream < 2)%nat ->
  match airplane_stream with
  | [] =>
      tabu_search_schedule_landings to_string airplane_stream max_iterations max_tabu_size g
      = Raise KeyError
  | _ =>
      ((1 <= max_iterations)%Z ->
         tabu_search_schedule_landings to_string airplane_stream max_iterations
           max_tabu_size g = Raise ValueError)
      /\ ((max_iterations <= 0)%Z ->
            tabu_search_schedule_landings to_string airplane_stream max_iterations
              max_tabu_size g
            = Ok (calculate_score (schedule_landings (recompute_urgency airplane_stream))
                    (recompute_urgency airplane_stream), []))
  end.
Proof.
  intros Hn. destruct airplane_stream as [|a [|b l]]; [reflexivity| |simpl in Hn; lia].
  pose proof (schedule_landings_scored (recompute_urgency [a]) (le_n 1)) as Hsc.
  unfold tabu_search_schedule_landings, tabu_search_run, evaluate_landing_schedule.
  rewrite (Score_sum_scored _ _ Hsc). split; intros Hmax.
  - destruct (Z.to_nat max_iterations) as [|fuel] eqn:Hfuel; [lia|].
    simpl. assert (Hlt : (0 <? max_iterations)%Z = true) by (apply Z.ltb_lt; lia).
    rewrite Hlt. unfold tabu_body, get_Hill_Tabu_successors. simpl.
    rewrite sample2_too_few; [reflexivity|].
    destruct Hsc as [Hlen _]. simpl in Hlen. rewrite Hlen. simpl. lia.
  - replace (Z.to_nat max_iterations) with 0%nat by lia. reflexivity.
Qed.

End TooFew.

Lemma hill_climbing_too_few_witness :
  hill_climbing_schedule_landings 1 [low_fuel_airplane] 5%nat = Some (Raise ValueError).
Proof.
  apply (hill_climbing_too_few 1 [low_fuel_airplane] 5%nat); [apply le_n|apply le_n].
Defined.

Lemma simulated_annealing_too_few_witness :
  simulated_annealing_schedule_landings always_accept 1 [low_fuel_airplane] 5%nat
  = Some (Raise ValueError).
Proof.
  apply (simulated_annealing_too_few always_accept 1 [low_fuel_airplane] 5%nat);
    [apply le_n|apply le_n].
Defined.

Lemma tabu_search_too_few_witness :
  tabu_search_schedule_landings render_ids [low_fuel_airplane] 4 10 5%nat
  = Raise ValueError.
Proof.
  refine (proj1 (tabu_search_too_few render_ids [low_fuel_airplane] 4 10 5%nat _) _).
  - apply le_n.
  - discriminate.
Defined.

(** ** [hill_climbing_schedule_landings] never moves to a higher score *)

Lemma evaluate_landing_schedule_sum df airplane_stream df' total :
  evaluate_landing_schedule df airplane_stream = Ok (df', total) ->
  Score_sum df' = Ok total.
Proof.
  unfold evaluate_landing_schedule.
  destruct (Score_sum (calculate_score df airplane_stream)) as [t|e] eqn:Hsum;
    simpl; [|discriminate].
  by intros [= <- <-].
Qed.

Lemma lowest_neighbor_spec airplane_stream neighbors : forall df current df' current',
  Score_sum df = Ok current ->
  lowest_neighbor airplane_stream neighbors df current = Ok (df', current') ->
  Score_sum df' = Ok current' /\ current' <= current.
Proof.
  induction neighbors as [|nb l IH]; intros df current df' current' Hdf; simpl.
  - intros [= <- <-]. split; [done|apply Qle_refl].
  - destruct (evaluate_landing_schedule nb airplane_stream) as [[nb' sc]|e] eqn:Hev;
      simpl; [|discriminate].
    apply evaluate_landing_schedule_sum in Hev.
    destruct (Qltb sc current) eqn:Hlt.
    + intros Hrest. destruct (IH _ _ _ _ Hev Hrest) as [Hsum Hle].
      split; [done|]. apply Qltb_lt in Hlt. lra.
    + by apply IH.
Qed.

Section HillClimbingFacts.
Context {G : Type} `{RandomSource G}.

Lemma hill_climbing_loop_descends fuel : forall airplane_stream df current scores (g : G) df' scores',
  Score_sum df = Ok current ->
  hill_climbing_loop fuel airplane_stream df current scores g = Some (Ok (df', scores')) ->
  exists final, Score_sum df' = Ok final /\ final <= current.
Proof.
  induction fuel as [|fuel IH]; intros airplane_stream df current scores g df' scores' Hdf;
    simpl; [discriminate|].
  destruct (get_Hill_Tabu_successors df airplane_stream g) as [[neighbors g']|e];
    [|discriminate].
  destruct (lowest_neighbor airplane_stream neighbors df current) as [[next_df next]|e] eqn:Hlow;
    [|discriminate].
  destruct (lowest_neighbor_spec _ _ _ _ _ _ Hdf Hlow) as [Hnext Hle].
  destruct (Qeq_bool next current).
  - intros [= <- _]. exists current. split; [done|apply Qle_refl].
  - intros Hrest. destruct (IH _ _ _ _ _ _ _ Hnext Hrest) as (final & Hfinal & Hle').
    exists final. split; [done|]. lra.
Qed.

(** Hill climbing is a descent: whenever it returns, the schedule it
    returns carries a [Score] column whose sum is at most the total of the
    initial schedule. *)
Theorem hill_climbing_descends (fuel : nat) (airplane_stream : list Airplane) (g : G)
  (df : DataFrame) (scores : list Q) :
  hill_climbing_schedule_landings fuel airplane_stream g = Some (Ok (df, scores)) ->
  exists df0 initial final,
    evaluate_landing_schedule (schedule_landings (recompute_urgency airplane_stream))
      (recompute_urgency airplane_stream) = Ok (df0, initial)
    /\ Score_sum df = Ok final
    /\ final <= initial.
Proof.
  unfold hill_climbing_schedule_landings.
  destruct (evaluate_landing_schedule _ _) as [[df0 initial]|e] eqn:Hev; [|discriminate].
  intros Hrun. apply evaluate_landing_schedule_sum in Hev.
  destruct (hill_climbing_loop_descends _ _ _ _ _ _ _ _ Hev Hrun) as (final & Hfinal & Hle).
  by exists df0, initial, final.
Qed.

End HillClimbingFacts.

Lemma hill_climbing_descends_witness :
  match hill_climbing_schedule_landings 20 four_airplanes 5%nat with
  | Some (Ok (df, scores)) =>
      exists df0 initial final,
        evaluate_landing_schedule (schedule_landings (recompute_urgency four_airplanes))
          (recompute_urgency four_airplanes) = Ok (df0, initial)
        /\ Score_sum df = Ok final
        /\ final <= initial
  | _ => False
  end.
Proof.
  destruct (hill_climbing_schedule_landings 20 four_airplanes 5%nat)
    as [[[df scores]|e]|] eqn:E.
  - exact (hill_climbing_descends 20 four_airplanes 5%nat df scores E).
  - vm_compute in E. discriminate E.
  - vm_compute in E. discriminate E.
Defined.

(** ** [simulated_annealing_schedule_landings] only reorders the initial schedule *)

Lemma sum_scores_perm l l' : l ≡ₚ l' -> sum_scores l == sum_scores l'.
Proof.
  induction 1 as [|r l l' _ IH|r r' l|l l' l'' _ IH1 _ IH2]; simpl.
  - reflexivity.
  - destruct (score r); [by rewrite IH|exact IH].
  - destruct (score r), (score r'); try reflexivity. ring.
  - by rewrite IH1.
Qed.

Lemma map_fixed {A : Type} (f : A -> A) (l : list A) :
  Forall (fun x => f x = x) l -> map f l = l.
Proof. induction 1 as [|x l Hx _ IH]; simpl; [done|]. by rewrite Hx, IH. Qed.

(** A frame that holds the records of the scored initial schedule of
    [airplane_stream], in some order. *)
Lemma calculate_score_swap_perm airplane_stream df i j :
  rows df ≡ₚ rows (calculate_score (schedule_landings airplane_stream) airplane_stream) ->
  rows (calculate_score (iloc_swap i j df) airplane_stream)
  ≡ₚ rows (calculate_score (schedule_landings airplane_stream) airplane_stream).
Proof.
  intros Hp. cbn [calculate_score iloc_swap rows] in *.
  rewrite map_fixed.
  - by rewrite swap_rows_perm.
  - rewrite swap_rows_perm, Hp. apply Forall_fmap, Forall_forall.
    intros r _. simpl. apply score_row_idem.
Qed.

Section AnnealingReorders.
Context {G : Type} `{RandomSource G}.
Variable exp_gt_random : float -> Q -> G -> bool * G.

Lemma annealing_body_inv airplane_stream T st st' :
  annealing_inv airplane_stream st ->
  annealing_body exp_gt_random airplane_stream T st = Ok st' ->
  annealing_inv airplane_stream st'.
Proof.
  intros (Hcur & Hbest & Hcs & Hbs). unfold annealing_body, get_schedule_neighbor.
  destruct (sample2 _ _) as [[[i j] g]|e]; simpl; [|discriminate].
  pose proof (calculate_score_swap_perm airplane_stream _ i j Hcur) as Hnew.
  unfold Score_sum.
  destruct (has_score_column (calculate_score (iloc_swap i j (current_schedule st))
                                airplane_stream)); simpl; [|discriminate].
  pose proof (sum_scores_perm _ _ Hnew) as Hsum.
  destruct (if Qltb _ _ then _ else _) as [[] g'].
  - intros [= <-]. unfold annealing_inv. cbn [current_schedule best_schedule
                                                current_score best_score].
    repeat split; try done; by destruct (Qltb (best_score st) _).
  - intros [= <-]. by repeat split.
Qed.

Lemma annealing_loop_inv airplane_stream fuel : forall T st st',
  annealing_inv airplane_stream st ->
  annealing_loop exp_gt_random fuel airplane_stream T st = Some (Ok st') ->
  annealing_inv airplane_stream st'.
Proof.
  induction fuel as [|fuel IH]; intros T st st' Hst; simpl; [discriminate|].
  destruct (Cooling.running T); [|by intros [= <-]].
  destruct (annealing_body exp_gt_random airplane_stream T st) as [st1|e] eqn:Hbody;
    [|discriminate].
  apply IH. by eapply annealing_body_inv.
Qed.

Lemma simulated_annealing_run_inv fuel airplane_stream (g : G) st :
  simulated_annealing_run exp_gt_random fuel airplane_stream g = Some (Ok st) ->
  annealing_inv airplane_stream st.
Proof.
  unfold simulated_annealing_run.
  destruct (Score_sum _) as [t0|e] eqn:Hsum; [|discriminate].
  apply annealing_loop_inv.
  unfold Score_sum in Hsum. destruct (has_score_column _); [|discriminate].
  injection Hsum as <-. by repeat split.
Qed.

(** Whatever the draws and the acceptance decisions, the schedule that
    simulated annealing returns holds exactly the records of the scored
    initial schedule, in some order: every record keeps its landing time,
    its runway and its score. *)
Theorem simulated_annealing_reorders (fuel : nat) (airplane_stream : list Airplane) (g : G)
  (df : DataFrame) (sc : Q) :
  simulated_annealing_schedule_landings exp_gt_random fuel airplane_stream g
    = Some (Ok (df, sc)) ->
  rows df ≡ₚ rows (calculate_score (schedule_landings airplane_stream) airplane_stream).
Proof.
  unfold simulated_annealing_schedule_landings.
  destruct (simulated_annealing_run exp_gt_random fuel airplane_stream g)
    as [[st|e]|] eqn:Hrun; simpl; try discriminate.
  intros [= <- _]. by destruct (simulated_annealing_run_inv _ _ _ _ Hrun) as (_ & Hbest & _).
Qed.


End AnnealingReorders.

Lemma simulated_annealing_reorders_witness :
  match simulated_annealing_schedule_landings always_accept 70 four_airplanes 5%nat with
  | Some (Ok (df, sc)) =>
      rows df ≡ₚ rows (calculate_score (schedule_landings four_airplanes) four_airplanes)
  | _ => False
  end.
Proof.
  destruct (simulated_annealing_schedule_landings always_accept 70 four_airplanes 5%nat)
    as [[[df sc]|e]|] eqn:E.
  - exact (simulated_annealing_reorders always_accept 70 four_airplanes 5%nat df sc E).
  - vm_compute in E. discriminate E.
  - vm_compute in E. discriminate E.
Defined.


(** ** [tabu_search_schedule_landings]: the tabu list and the first history entry *)

Section TabuListFacts.
Context {G : Type} `{RandomSource G}.
Variable to_string : DataFrame -> string.

Lemma tabu_neighbors_bounded airplane_stream max_tabu_size neighbors : forall st st',
  (Z.of_nat (length (tabu_list st)) <= Z.max 0 max_tabu_size)%Z ->
  tabu_neighbors to_string airplane_stream max_tabu_size neighbors st = Ok st' ->
  (Z.of_nat (length (tabu_list st')) <= Z.max 0 max_tabu_size)%Z.
Proof.
  induction neighbors as [|nb l IH]; intros st st' Hst; simpl.
  - by intros [= <-].
  - destruct (evaluate_landing_schedule nb airplane_stream) as [[nb' sc]|e]; simpl;
      [|discriminate].
    apply IH. cbn [tabu_list].
    destruct (negb (string_in (to_string nb) (tabu_list st))); [|exact Hst].
    destruct (max_tabu_size <? _)%Z eqn:E.
    + destruct (tabu_list st) as [|x t]; simpl in *; [lia|].
      rewrite length_app in *. simpl in *. lia.
    + apply Z.ltb_ge in E. lia.
Qed.

Lemma tabu_body_bounded airplane_stream max_tabu_size (st st' : @TabuState G) :
  (Z.of_nat (length (tabu st)) <= Z.max 0 max_tabu_size)%Z ->
  tabu_body to_string airplane_stream max_tabu_size st = Ok st' ->
  (Z.of_nat (length (tabu st')) <= Z.max 0 max_tabu_size)%Z.
Proof.
  intros Hst. unfold tabu_body.
  destruct (get_Hill_Tabu_successors _ _ _) as [[neighbors g]|e]; simpl; [|discriminate].
  destruct (evaluate_landing_schedule _ _) as [[current_df best]|e]; simpl; [|discriminate].
  destruct (tabu_neighbors _ _ _ _ _) as [inner|e] eqn:Hinner; simpl; [|discriminate].
  apply tabu_neighbors_bounded in Hinner; [|exact Hst].
  destruct (Qle_bool _ _).
  - destruct (random_float g) as [r g']. destruct (Qltb r (1 / 10)).
    + destruct (choice _ _) as [[picked g'']|e]; simpl; [|discriminate].
      destruct (evaluate_landing_schedule picked _) as [[picked' sc]|e]; simpl;
        [|discriminate].
      by intros [= <-].
    + simpl. by intros [= <-].
  - simpl. by intros [= <-].
Qed.

Lemma tabu_loop_bounded airplane_stream max_iterations max_tabu_size fuel :
  forall st st' : @TabuState G,
  (Z.of_nat (length (tabu st)) <= Z.max 0 max_tabu_size)%Z ->
  tabu_loop to_string fuel airplane_stream max_iterations max_tabu_size st = Ok st' ->
  (Z.of_nat (length (tabu st')) <= Z.max 0 max_tabu_size)%Z.
Proof.
  induction fuel as [|fuel IH]; intros st st' Hst; simpl; [by intros [= <-]|].
  destruct (it st <? max_iterations)%Z; [|by intros [= <-]].
  destruct (tabu_body to_string airplane_stream max_tabu_size st) as [st1|e] eqn:Hbody;
    simpl; [|discriminate].
  apply IH. by eapply tabu_body_bounded.
Qed.

(** The tabu list never outgrows its bound: when the search returns, the
    list holds at most [max_tabu_size] renderings (none when the bound is
    negative), the oldest having been dropped first. *)
Theorem tabu_list_bounded (airplane_stream : list Airplane)
  (max_iterations max_tabu_size : Z) (g : G) (st : @TabuState G) :
  tabu_search_run to_string airplane_stream max_iterations max_tabu_size g = Ok st ->
  (Z.of_nat (length (tabu st)) <= Z.max 0 max_tabu_size)%Z.
Proof.
  unfold tabu_search_run.
  destruct (evaluate_landing_schedule _ _) as [[df0 current]|e]; simpl; [|discriminate].
  apply tabu_loop_bounded. simpl. lia.
Qed.

Lemma tabu_loop_history_prefix airplane_stream max_iterations max_tabu_size fuel :
  forall st st' : @TabuState G,
  tabu_loop to_string fuel airplane_stream max_iterations max_tabu_size st = Ok st' ->
  exists rest, scores st' = scores st ++ rest.
Proof.
  induction fuel as [|fuel IH]; intros st st'; simpl.
  - intros [= <-]. exists []. by rewrite app_nil_r.
  - destruct (it st <? max_iterations)%Z.
    2:{ intros [= <-]. exists []. by rewrite app_nil_r. }
    destruct (tabu_body to_string airplane_stream max_tabu_size st) as [st1|e] eqn:Hbody;
      simpl; [|discriminate].
    intros Hrest. apply tabu_body_step in Hbody as [Hsc _].
    destruct (IH _ _ Hrest) as [rest Hrest']. rewrite Hrest', Hsc, <- app_assoc.
    by eexists.
Qed.

(** When at least one pass is allowed, the history that tabu search
    returns starts with the total of the initial schedule. *)
Theorem tabu_search_history_head (airplane_stream : list Airplane)
  (max_iterations max_tabu_size : Z) (g : G) (df : DataFrame) (history : list Q) :
  (1 <= max_iterations)%Z ->
  tabu_search_schedule_landings to_string airplane_stream max_iterations max_tabu_size g
    = Ok (df, history) ->
  exists df0 initial rest,
    evaluate_landing_schedule (schedule_landings (recompute_urgency airplane_stream))
      (recompute_urgency airplane_stream) = Ok (df0, initial)
    /\ history = initial :: rest.
Proof.
  intros Hmax. unfold tabu_search_schedule_landings, tabu_search_run.
  destruct (evaluate_landing_schedule _ _) as [[df0 initial]|e]; simpl; [|discriminate].
  destruct (Z.to_nat max_iterations) as [|fuel] eqn:Hfuel; [lia|]. simpl.
  assert (Hlt : (0 <? max_iterations)%Z = true) by (apply Z.ltb_lt; lia).
  rewrite Hlt.
  destruct (tabu_body _ _ _ _) as [st1|e] eqn:Hbody; simpl; [|discriminate].
  destruct (tabu_loop _ _ _ _ _ st1) as [st'|e] eqn:Hloop; simpl; [|discriminate].
  intros [= _ <-]. apply tabu_body_step in Hbody as [Hsc _]. simpl in Hsc.
  destruct (tabu_loop_history_prefix _ _ _ _ _ _ Hloop) as [rest Hrest].
  exists df0, initial, rest. split; [reflexivity|]. by rewrite Hrest, Hsc.
Qed.

End TabuListFacts.

Lemma tabu_list_bounded_witness :
  match tabu_search_run render_ids three_airplanes 4 3 5%nat with
  | Ok st => (Z.of_nat (length (tabu st)) <= Z.max 0 3)%Z
  | Raise _ => False
  end.
Proof.
  destruct (tabu_search_run render_ids three_airplanes 4 3 5%nat) as [st|e] eqn:E.
  - exact (tabu_list_bounded render_ids three_airplanes 4 3 5%nat st E).
  - vm_compute in E. discriminate E.
Defined.

Lemma tabu_search_history_head_witness :
  match tabu_search_schedule_landings render_ids three_airplanes 4 10 5%nat with
  | Ok (df, history) =>
      exists df0 initial rest,
        evaluate_landing_schedule (schedule_landings (recompute_urgency three_airplanes))
          (recompute_urgency three_airplanes) = Ok (df0, initial)
        /\ history = initial :: rest
  | Raise _ => False
  end.
Proof.
  destruct (tabu_search_schedule_landings render_ids three_airplanes 4 10 5%nat)
    as [[df history]|e] eqn:E.
  - refine (tabu_search_history_head render_ids three_airplanes 4 10 5%nat df history _ E).
    discriminate.
  - vm_compute in E. discriminate E.
Defined.

Lemma tabu_search_returns_witness :
  exists df history,
    tabu_search_schedule_landings render_ids three_airplanes 4 10 5%nat = Ok (df, history).
Proof.
  apply (tabu_search_returns render_ids three_airplanes 4 10 5%nat).
  apply le_S, le_n.
Defined.

(** ** The genetic algorithm: the initial population *)

Section SortedInvariance.
Context {A : Type} (key : A -> Q).

Lemma insert_by_comm x y l :
  ~ key x == key y ->
  insert_by key x (insert_by key y l) = insert_by key y (insert_by key x l).
Proof.
  intros Hne.
  assert (Hxy : key x < key y \/ key y < key x).
  { destruct (Q_dec (key x) (key y)) as [[?|?]|?]; [by left|by right|done]. }
  induction l as [|z l IH]; simpl.
  - destruct Hxy; decide_Qltb; reflexivity.
  - destruct Hxy; decide_Qltb; rewrite ?IH; reflexivity.
Qed.

Lemma distinct_keys_perm l l' :
  l ≡ₚ l' -> distinct_keys key l -> distinct_keys key l'.
Proof.
  unfold distinct_keys.
  induction 1 as [|x l l' Hp IH|x y l|l l' l'' _ IH1 _ IH2]; intros Hd.
  - constructor.
  - inversion Hd as [|? ? Hx Hl]; subst. constructor; [by rewrite <- Hp|by apply IH].
  - inversion Hd as [|? ? Hy Hrest]; subst. inversion Hrest as [|? ? Hx Hl]; subst.
    inversion Hy as [|? ? Hyx Hyl]; subst.
    constructor; [|by constructor].
    constructor; [|done]. intros E. apply Hyx. by symmetry.
  - by apply IH2, IH1.
Qed.

(** With no two keys equal, the result of the sort does not depend on the
    order of its input. *)
Lemma sorted_order_irrelevant l l' :
  l ≡ₚ l' -> distinct_keys key l -> sorted key l = sorted key l'.
Proof.
  induction 1 as [|x l l' Hp IH|x y l|l l' l'' Hp1 IH1 Hp2 IH2]; intros Hd; simpl.
  - reflexivity.
  - inversion Hd; subst. by rewrite IH.
  - inversion Hd as [|? ? Hy _]; subst. inversion Hy as [|? ? Hyx _]; subst.
    apply insert_by_comm. done.
  - rewrite IH1 by done. apply IH2. by eapply distinct_keys_perm.
Qed.

End SortedInvariance.

Lemma sorted_airplanes_order_irrelevant l l' :
  l ≡ₚ l' ->
  distinct_keys remaining_flying_time (filter (fun ap => is_urgent ap = true) l) ->
  distinct_keys expected_landing_time (filter (fun ap => is_urgent ap = false) l) ->
  sorted_airplanes l = sorted_airplanes l'.
Proof.
  intros Hp Hu Hn. unfold sorted_airplanes. f_equal.
  - apply sorted_order_irrelevant; [by rewrite Hp|done].
  - apply sorted_order_irrelevant; [by rewrite Hp|done].
Qed.

Lemma pool_step {A : Type} (pool : list A) j picked moved :
  pool !! j = Some picked -> last pool = Some moved ->
  picked :: take (length pool - 1) (<[j := moved]> pool) ≡ₚ pool.
Proof.
  intros Hj Hlast. apply last_Some in Hlast as [init ->].
  rewrite length_app. simpl. replace (length init + 1 - 1)%nat with (length init) by lia.
  destruct (decide (j < length init)%nat) as [Hlt|Hge].
  - rewrite lookup_app_l in Hj by done.
    rewrite insert_app_l by done.
    rewrite take_app_length' by (by rewrite length_insert).
    rewrite (insert_swap_out init j moved picked Hj).
    apply Permutation_cons_append.
  - assert (Hlen : (j < length (init ++ [moved]))%nat) by (by eapply lookup_lt_Some).
    rewrite length_app in Hlen. simpl in Hlen.
    assert (j = length init) as -> by lia.
    assert (Hsame : picked = moved).
    { rewrite lookup_app_r in Hj by lia. rewrite Nat.sub_diag in Hj. simpl in Hj.
      by injection Hj. }
    subst picked. rewrite list_insert_id by exact Hj.
    rewrite take_app_length. apply Permutation_cons_append.
Qed.

Section InitialPopulation.
Context {G : Type} `{RandomSource G}.

Lemma sample_pool_perm {A : Type} k : forall (pool : list A) (g : G),
  k = length pool -> (sample_pool k pool g).1 ≡ₚ pool.
Proof.
  induction k as [|k IH]; intros pool g Hk; simpl.
  - by destruct pool.
  - destruct (randbelow (length pool) g) as [x g1].
    assert (Hj : (x mod length pool < length pool)%nat).
    { apply Nat.mod_upper_bound. lia. }
    destruct (lookup_lt_is_Some_2 pool _ Hj) as [picked Hpicked]. rewrite Hpicked.
    assert (Hlast : is_Some (last pool)).
    { rewrite last_lookup. apply lookup_lt_is_Some_2. lia. }
    destruct Hlast as [moved Hmoved]. rewrite Hmoved.
    pose proof (pool_step pool _ picked moved Hpicked Hmoved) as Hstep.
    destruct (sample_pool k _ g1) as [result g2] eqn:Hrec. simpl.
    rewrite <- Hstep. constructor.
    pose proof (IH (take (length pool - 1) (<[x mod length pool := moved]> pool)) g1) as Hrest.
    rewrite Hrec in Hrest. apply Hrest.
    rewrite length_take, length_insert. lia.
Qed.

(** Shuffling does not change who is scheduled: the initial schedule of
    the genetic algorithm has one record per airplane of the stream, with
    the stream's ids. *)
Theorem generate_initial_schedule_ids (airplane_stream : list Airplane) (g : G) :
  map airplane_ID (rows (generate_initial_schedule airplane_stream g).1)
  ≡ₚ map id airplane_stream.
Proof.
  unfold generate_initial_schedule.
  pose proof (sample_pool_perm (length airplane_stream) airplane_stream g eq_refl) as Hp.
  destruct (sample_pool _ _ _) as [shuffled g']. simpl in *.
  rewrite schedule_landings_ids_sorted, sorted_airplanes_perm. by rewrite Hp.
Qed.

Lemma generate_initial_schedule_no_ties airplane_stream (g : G) :
  distinct_keys remaining_flying_time
    (filter (fun ap => is_urgent ap = true) airplane_stream) ->
  distinct_keys expected_landing_time
    (filter (fun ap => is_urgent ap = false) airplane_stream) ->
  (generate_initial_schedule airplane_stream g).1 = schedule_landings airplane_stream.
Proof.
  intros Hu Hn. unfold generate_initial_schedule.
  pose proof (sample_pool_perm (length airplane_stream) airplane_stream g eq_refl) as Hp.
  destruct (sample_pool _ _ _) as [shuffled g']. simpl in *.
  unfold schedule_landings.
  by rewrite <- (sorted_airplanes_order_irrelevant airplane_stream shuffled).
Qed.

(** The initial population has [population_size] individuals.  When no two
    urgent airplanes have the same remaining flying time and no two
    non-urgent ones the same expected landing time, the shuffles are
    undone by the sorting in [schedule_landings]: every individual is the
    schedule of the unshuffled stream. *)
Theorem generate_initial_population_uniform (population_size : nat)
  (airplane_stream : list Airplane) (g : G) :
  distinct_keys remaining_flying_time
    (filter (fun ap => is_urgent ap = true) airplane_stream) ->
  distinct_keys expected_landing_time
    (filter (fun ap => is_urgent ap = false) airplane_stream) ->
  (generate_initial_population population_size airplane_stream g).1
  = replicate population_size (schedule_landings airplane_stream).
Proof.
  intros Hu Hn. revert g.
  induction population_size as [|k IH]; intros g; simpl; [done|].
  pose proof (generate_initial_schedule_no_ties airplane_stream g Hu Hn) as Hfirst.
  destruct (generate_initial_schedule airplane_stream g) as [schedule g1]. simpl in Hfirst.
  specialize (IH g1).
  destruct (generate_initial_population k airplane_stream g1) as [population g2].
  simpl in *. by rewrite Hfirst, IH.
Qed.

End InitialPopulation.

Lemma three_airplanes_no_ties :
  distinct_keys remaining_flying_time
    (filter (fun ap => is_urgent ap = true) three_airplanes)
  /\ distinct_keys expected_landing_time
       (filter (fun ap => is_urgent ap = false) three_airplanes).
Proof.
  split; unfold distinct_keys.
  - change (ForallOrdPairs
              (fun x y => ~ remaining_flying_time x == remaining_flying_time y) []).
    constructor.
  - change (ForallOrdPairs
              (fun x y => ~ expected_landing_time x == expected_landing_time y)
              three_airplanes).
    unfold three_airplanes.
    repeat first [ apply FOP_nil | apply FOP_cons | apply List.Forall_nil
                 | apply List.Forall_cons
                 | (intros E; vm_compute in E; discriminate E) ].
Qed.

Lemma generate_initial_population_uniform_witness :
  (generate_initial_population 3 three_airplanes 5%nat).1
  = replicate 3 (schedule_landings three_airplanes).
Proof.
  apply (generate_initial_population_uniform 3 three_airplanes 5%nat).
  - exact (proj1 three_airplanes_no_ties).
  - exact (proj2 three_airplanes_no_ties).
Defined.

(** ** The genetic algorithm: crossover *)

Section CrossoverFacts.
Context {G : Type} `{RandomSource G}.

Lemma randint_spec a b (g g' : G) x :
  randint a b g = Ok (x, g') -> (a <= x <= b)%Z.
Proof.
  unfold randint. destruct (b <? a)%Z eqn:E; [discriminate|].
  apply Z.ltb_ge in E.
  destruct (randbelow (Z.to_nat (b - a + 1)) g) as [y g1]. intros [= <- _].
  pose proof (Nat.mod_upper_bound y (Z.to_nat (b - a + 1)) ltac:(lia)). lia.
Qed.

Lemma exchange_tails {A : Type} (a1 d1 a2 d2 : list A) :
  (a1 ++ d2) ++ (a2 ++ d1) ≡ₚ (a1 ++ d1) ++ (a2 ++ d2).
Proof.
  rewrite <- !app_assoc. f_equiv.
  rewrite (Permutation_app_comm d2 (a2 ++ d1)). rewrite <- app_assoc.
  apply Permutation_app_swap_app.
Qed.

Lemma concat_at_perm point (top bottom : DataFrame) :
  rows (concat_at point top bottom) ++ rows (concat_at point bottom top)
  ≡ₚ rows top ++ rows bottom.
Proof.
  simpl. rewrite exchange_tails. by rewrite !take_drop.
Qed.

(** Whatever [crossover] returns for two parents of equal length, the two
    children have the parents' length and together hold exactly the
    parents' records; either they are the parents themselves, or each is
    the top of one parent above the bottom of the other, cut at a point
    strictly inside the schedule. *)
Theorem crossover_children (crossover_rate : Q) (parent1 parent2 child1 child2 : DataFrame)
  (g g' : G) :
  length (rows parent1) = length (rows parent2) ->
  crossover crossover_rate parent1 parent2 g = Ok (child1, child2, g') ->
  length (rows child1) = length (rows parent1)
  /\ length (rows child2) = length (rows parent1)
  /\ rows child1 ++ rows child2 ≡ₚ rows parent1 ++ rows parent2
  /\ ((child1 = parent1 /\ child2 = parent2)
      \/ exists point,
           (1 <= point)%nat /\ (point + 2 <= length (rows parent1))%nat
           /\ child1 = concat_at point parent1 parent2
           /\ child2 = concat_at point parent2 parent1).
Proof.
  intros Hlen. unfold crossover. destruct (random_float g) as [r g1].
  destruct (Qltb r crossover_rate).
  - destruct (randint 1 _ g1) as [[cp g2]|e] eqn:Hcp; simpl; [|discriminate].
    intros [= <- <- _]. apply randint_spec in Hcp.
    repeat split.
    + simpl. rewrite length_app, length_take, length_drop. lia.
    + simpl. rewrite length_app, length_take, length_drop. lia.
    + apply concat_at_perm.
    + right. exists (Z.to_nat cp). repeat split; lia.
  - simpl. intros [= <- <- _]. repeat split; try done. by left.
Qed.

(** When the draw calls for a crossover and the first parent has fewer
    than three records there is no cut point, and [crossover] raises
    [ValueError]. *)
Theorem crossover_too_short (crossover_rate : Q) (parent1 parent2 : DataFrame) (g : G) :
  (length (rows parent1) < 3)%nat ->
  Qltb (random_float g).1 crossover_rate = true ->
  crossover crossover_rate parent1 parent2 g = Raise ValueError.
Proof.
  intros Hlen Hdraw. unfold crossover. destruct (random_float g) as [r g1].
  simpl in Hdraw. rewrite Hdraw. unfold randint.
  assert (Hempty : (Z.of_nat (length (rows parent1)) - 2 <? 1)%Z = true)
    by (apply Z.ltb_lt; lia).
  by rewrite Hempty.
Qed.

End CrossoverFacts.

Lemma crossover_children_witness :
  match crossover (8 # 10) (schedule_landings four_airplanes)
          (iloc_swap 0 3 (schedule_landings four_airplanes)) 5%nat with
  | Ok (child1, child2, _) =>
      length (rows child1) = 4%nat
      /\ length (rows child2) = 4%nat
      /\ rows child1 ++ rows child2
         ≡ₚ rows (schedule_landings four_airplanes)
            ++ rows (iloc_swap 0 3 (schedule_landings four_airplanes))
  | Raise _ => False
  end.
Proof.
  destruct (crossover (8 # 10) (schedule_landings four_airplanes)
              (iloc_swap 0 3 (schedule_landings four_airplanes)) 5%nat)
    as [[[child1 child2] g']|e] eqn:E.
  - destruct (crossover_children (8 # 10) (schedule_landings four_airplanes)
                (iloc_swap 0 3 (schedule_landings four_airplanes))
                child1 child2 5%nat g' eq_refl E) as (H1 & H2 & Hp & _).
    exact (conj H1 (conj H2 Hp)).
  - vm_compute in E. discriminate E.
Defined.

Lemma crossover_too_short_witness :
  crossover (8 # 10) (schedule_landings urgent_airplanes)
    (schedule_landings urgent_airplanes) 5%nat = Raise ValueError.
Proof.
  apply (crossover_too_short (8 # 10) (schedule_landings urgent_airplanes)
           (schedule_landings urgent_airplanes) 5%nat).
  - apply le_n.
  - reflexivity.
Defined.

(** ** The genetic algorithm: mutation *)

Lemma swap_landing_times_columns i j l :
  map row_identity (swap_landing_times i j l) = map row_identity l
  /\ map actual_landing_time (swap_landing_times i j l) ≡ₚ map actual_landing_time l.
Proof.
  unfold swap_landing_times.
  destruct (l !! i) as [r|] eqn:Hi; [|done].
  destruct (l !! j) as [r'|] eqn:Hj; [|done].
  split.
  - change map with (@fmap list _). rewrite !list_fmap_insert.
    rewrite (list_insert_id (row_identity <$> l) i).
    + apply list_insert_id. by rewrite list_lookup_fmap, Hj.
    + by rewrite list_lookup_fmap, Hi.
  - change map with (@fmap list _). rewrite !list_fmap_insert. simpl.
    apply insert_insert_swap.
    + by rewrite list_lookup_fmap, Hi.
    + by rewrite list_lookup_fmap, Hj.
Qed.

Lemma first_index_of_Some i l k :
  first_index_of i l = Some k -> exists r, l !! k = Some r /\ airplane_ID r = i.
Proof.
  revert k. induction l as [|r l IH]; intros k; simpl; [discriminate|].
  destruct (Z.eqb (airplane_ID r) i) eqn:E.
  - intros [= <-]. exists r. split; [done|]. by apply Z.eqb_eq.
  - destruct (first_index_of i l) as [k'|]; simpl; [|discriminate].
    intros [= <-]. by apply IH.
Qed.

Lemma first_index_of_found i l :
  i ∈ map airplane_ID l -> exists k, first_index_of i l = Some k.
Proof.
  induction l as [|r l IH]; simpl; [by intros ?%elem_of_nil|].
  destruct (Z.eqb (airplane_ID r) i) eqn:E; [by eauto|].
  intros [Hr|Hl]%elem_of_cons.
  - apply Z.eqb_neq in E. congruence.
  - destruct (IH Hl) as [k ->]. simpl. by eauto.
Qed.

Section MutationFacts.
Context {G : Type} `{RandomSource G}.

Lemma mutate_at_columns mutation_rate airplane_stream index schedule (g g' : G) schedule' :
  mutate_at mutation_rate airplane_stream index schedule g = Ok (schedule', g') ->
  map row_identity (rows schedule') = map row_identity (rows schedule)
  /\ map actual_landing_time (rows schedule') ≡ₚ map actual_landing_time (rows schedule)
  /\ has_score_column schedule' = has_score_column schedule.
Proof.
  unfold mutate_at. destruct (random_float g) as [r g1].
  destruct (Qltb r mutation_rate); simpl; [|by intros [= <- _]].
  destruct (choice airplane_stream g1) as [[plane g2]|e]; simpl; [|discriminate].
  destruct (first_index_of (id plane) (rows schedule)) as [k|]; simpl; [|discriminate].
  intros [= <- _]. simpl.
  destruct (swap_landing_times_columns index k (rows schedule)) as [Hid Htimes].
  by repeat split.
Qed.

(** Mutation only moves landing times between records: in the frame it
    returns every record keeps its airplane id, urgency flag, runway and
    score in its place, and the column of landing times is a reordering of
    the one it was given. *)
Theorem mutate_columns (mutation_rate : Q) (airplane_stream : list Airplane)
  (schedule schedule' : DataFrame) (g g' : G) :
  mutate mutation_rate airplane_stream schedule g = Ok (schedule', g') ->
  map row_identity (rows schedule') = map row_identity (rows schedule)
  /\ map actual_landing_time (rows schedule') ≡ₚ map actual_landing_time (rows schedule)
  /\ has_score_column schedule' = has_score_column schedule.
Proof.
  unfold mutate. generalize (range 0 (length (rows schedule))) at 1.
  intros indices. revert schedule g.
  induction indices as [|index rest IH]; intros schedule g; simpl.
  - by intros [= <- _].
  - destruct (mutate_at mutation_rate airplane_stream index schedule g)
      as [[schedule1 g1]|e] eqn:Hat; simpl; [|discriminate].
    intros Hrest. apply mutate_at_columns in Hat as (Hid & Htimes & Hcol).
    destruct (IH _ _ Hrest) as (Hid' & Htimes' & Hcol').
    split; [by rewrite Hid'|]. split; [by rewrite Htimes'|by rewrite Hcol'].
Qed.

(** Mutation returns whenever the stream is not empty and each of its
    airplanes has a record in the schedule; an airplane without a record
    is what makes the row lookup fail. *)
Theorem mutate_returns (mutation_rate : Q) (airplane_stream : list Airplane)
  (schedule : DataFrame) (g : G) :
  airplane_stream <> [] ->
  (forall a, a ∈ airplane_stream -> id a ∈ map airplane_ID (rows schedule)) ->
  exists schedule' g', mutate mutation_rate airplane_stream schedule g = Ok (schedule', g').
Proof.
  intros Hne. unfold mutate. generalize (range 0 (length (rows schedule))) at 1.
  intros indices. revert schedule g.
  induction indices as [|index rest IH]; intros schedule g Hids; simpl; [by eauto|].
  assert (Hat : exists schedule1 g1,
            mutate_at mutation_rate airplane_stream index schedule g = Ok (schedule1, g1)).
  { unfold mutate_at. destruct (random_float g) as [r g1].
    destruct (Qltb r mutation_rate); simpl; [|by eauto].
    destruct (choice_returns airplane_stream g1 Hne) as (plane & g2 & -> & Hplane). simpl.
    destruct (first_index_of_found _ _ (Hids plane Hplane)) as [k ->]. simpl. by eauto. }
  destruct Hat as (schedule1 & g1 & Hat). rewrite Hat. simpl.
  apply IH. intros a Ha.
  apply mutate_at_columns in Hat as (Hid & _ & _).
  assert (Hcol : map airplane_ID (rows schedule1) = map airplane_ID (rows schedule)).
  { assert (Hfst : forall l, map airplane_ID l = map fst (map row_identity l)).
    { intros l. rewrite map_map. reflexivity. }
    by rewrite (Hfst (rows schedule1)), Hid, <- Hfst. }
  rewrite Hcol. by apply Hids.
Qed.

End MutationFacts.

Lemma mutate_columns_witness :
  match mutate (5 # 10) four_airplanes (schedule_landings four_airplanes) 2%nat with
  | Ok (schedule', _) =>
      map row_identity (rows schedule')
        = map row_identity (rows (schedule_landings four_airplanes))
      /\ map actual_landing_time (rows schedule')
         ≡ₚ map actual_landing_time (rows (schedule_landings four_airplanes))
      /\ has_score_column schedule' = has_score_column (schedule_landings four_airplanes)
  | Raise _ => False
  end.
Proof.
  destruct (mutate (5 # 10) four_airplanes (schedule_landings four_airplanes) 2%nat)
    as [[schedule' g']|e] eqn:E.
  - exact (mutate_columns (5 # 10) four_airplanes (schedule_landings four_airplanes)
             schedule' 2%nat g' E).
  - vm_compute in E. discriminate E.
Defined.

Lemma mutate_returns_witness :
  exists schedule' g',
    mutate (5 # 10) four_airplanes (schedule_landings four_airplanes) 2%nat
    = Ok (schedule', g').
Proof.
  apply (mutate_returns (5 # 10) four_airplanes (schedule_landings four_airplanes) 2%nat).
  - discriminate.
  - intros a Ha. unfold four_airplanes, three_airplanes in Ha. simpl in Ha.
    rewrite !elem_of_cons, elem_of_nil in Ha.
    destruct Ha as [->|[->|[->|[->|[]]]]]; vm_compute;
      repeat first [apply list_elem_of_here | apply list_elem_of_further].
Defined.

(** ** Construction and generation of airplanes *)




Section GenerationFacts.
Context {G : Type} `{RandomSource G}.
Hypothesis unit_source : @unit_interval_source G _.

Lemma uniform_bounds a b (g : G) :
  a <= b ->
  a <= (uniform a b g).1 /\ (uniform a b g).1 <= b /\ (a < b -> (uniform a b g).1 < b).
Proof.
  intros Hab. unfold uniform. destruct (unit_source g) as [H0 H1].
  destruct (random_float g) as [r g1]. simpl in *.
  split; [nra|]. split; [nra|]. intros Hlt. nra.
Qed.

Lemma Airplane_new_spec i min_fuel max_fuel min_arrival_time max_arrival_time (g : G) :
  exists a g',
    Airplane_new i min_fuel max_fuel min_arrival_time max_arrival_time g = Ok (a, g')
    /\ id a = i
    /\ generated min_arrival_time max_arrival_time a.
Proof.
  unfold Airplane_new.
  pose proof (uniform_bounds 5 20 g ltac:(lra)) as (Hlo & _ & Hhi).
  destruct (uniform 5 20 g) as [rate g1]. simpl in *.
  assert (Hrate : rate < 20) by (apply Hhi; reflexivity).
  pose proof (fun Hle => uniform_bounds min_arrival_time max_arrival_time g1 Hle) as Helt.
  destruct (uniform min_arrival_time max_arrival_time g1) as [elt g2]. simpl in *.
  destruct (uniform min_fuel max_fuel g2) as [fl g3].
  assert (Hpos : 0 < rate) by lra.
  pose proof (Airplane_init_ok i {| draw_rate := rate; draw_arrival := elt; draw_fuel := fl |}
                Hpos) as Hinit.
  pose proof (Airplane_init_wf i
                {| draw_rate := rate; draw_arrival := elt; draw_fuel := fl |} _
                Hpos Hinit) as Hwf.
  rewrite Hinit. simpl. eexists _, _. split; [reflexivity|]. split; [reflexivity|].
  split; [exact Hwf|]. simpl. split; [lra|].
  intros Hle. destruct (Helt Hle) as (H1 & H2 & _). by split.
Qed.

Lemma generate_airplanes_spec ids min_fuel max_fuel min_arrival_time max_arrival_time :
  forall g : G,
  exists airplane_stream g',
    generate_airplanes ids min_fuel max_fuel min_arrival_time max_arrival_time g
      = Ok (airplane_stream, g')
    /\ map id airplane_stream = map Z.of_nat ids
    /\ Forall (generated min_arrival_time max_arrival_time) airplane_stream.
Proof.
  induction ids as [|i ids IH]; intros g; simpl.
  - exists [], g. by repeat split.
  - destruct (Airplane_new_spec (Z.of_nat i) min_fuel max_fuel min_arrival_time
                max_arrival_time g) as (a & g1 & -> & Hid & Hgen).
    simpl. destruct (IH g1) as (l & g2 & -> & Hids & Hall). simpl.
    exists (a :: l), g2. split; [reflexivity|]. split; [simpl; by rewrite Hid, Hids|].
    by constructor.
Qed.

(** With a generator whose [random()] stays in [0, 1), the stream producer
    always returns: [num_airplanes] airplanes carrying the ids 1, 2, ... in
    order (hence distinct), each satisfying the construction invariants,
    with a consumption rate between 5 and 20 and, when the arrival bounds
    are in order, an expected landing time between them. *)
Theorem generate_airplane_stream_spec (num_airplanes : nat)
  (min_fuel max_fuel min_arrival_time max_arrival_time : Q) (g : G) :
  exists airplane_stream g',
    generate_airplane_stream num_airplanes min_fuel max_fuel
      min_arrival_time max_arrival_time g = Ok (airplane_stream, g')
    /\ map id airplane_stream = map Z.of_nat (seq 1 num_airplanes)
    /\ NoDup (map id airplane_stream)
    /\ Forall airplane_wf airplane_stream
    /\ Forall (fun a => 5 <= fuel_consumption_rate a <= 20) airplane_stream
    /\ (min_arrival_time <= max_arrival_time ->
        Forall (fun a => min_arrival_time <= expected_landing_time a <= max_arrival_time)
          airplane_stream).
Proof.
  unfold generate_airplane_stream, range.
  replace (num_airplanes + 1 - 1)%nat with num_airplanes by lia.
  destruct (generate_airplanes_spec (seq 1 num_airplanes) min_fuel max_fuel
              min_arrival_time max_arrival_time g) as (l & g' & Hrun & Hids & Hall).
  exists l, g'. split; [exact Hrun|]. split; [exact Hids|].
  split; [|split; [|split]].
  - rewrite Hids. apply NoDup_fmap_2; [intros x y; apply Nat2Z.inj|apply NoDup_seq].
  - eapply Forall_impl; [exact Hall|]. by intros a (? & _).
  - eapply Forall_impl; [exact Hall|]. by intros a (_ & ? & _).
  - intros Hle. eapply Forall_impl; [exact Hall|]. intros a (_ & _ & Helt). by apply Helt.
Qed.

End GenerationFacts.

Lemma lcg_unit_interval : @unit_interval_source nat lcg_source.
Proof.
  intros g. simpl.
  assert (Hm : (g mod 10 < 10)%nat) by (by apply Nat.mod_upper_bound).
  split.
  - apply Qle_shift_div_l; [reflexivity|]. rewrite Qmult_0_l.
    change 0 with (inject_Z 0). rewrite <- Zle_Qle. lia.
  - apply Qlt_shift_div_r; [reflexivity|]. rewrite Qmult_1_l.
    change 10 with (inject_Z 10). rewrite <- Zlt_Qlt. lia.
Qed.

Lemma generate_airplane_stream_spec_witness :
  exists airplane_stream g',
    generate_airplane_stream 3 1000 5000 10 200 5%nat = Ok (airplane_stream, g')
    /\ map id airplane_stream = map Z.of_nat (seq 1 3)
    /\ NoDup (map id airplane_stream)
    /\ Forall airplane_wf airplane_stream
    /\ Forall (fun a => 5 <= fuel_consumption_rate a <= 20) airplane_stream
    /\ (10 <= 200 ->
        Forall (fun a => 10 <= expected_landing_time a <= 200) airplane_stream).
Proof.
  exact (generate_airplane_stream_spec lcg_unit_interval 3 1000 5000 10 200 5%nat).
Defined.
